(** * OSHI Bot SDK (sdk/oshi_bot.py): request execution and error classification

    A shallow embedding of the Python client [OshiBot]: its constructor, the
    payload builders, the internal request executor [_request], the bulk
    operation [send_to_all_groups] and the display form [__repr__].

    Python values decoded from JSON are the inductive [pyval]; dictionaries
    are finite maps keyed by strings.  Method bodies run in a state and
    exception monad [Exec]: the state holds the client instance and a journal
    of the observable effects (HTTP requests issued, log lines, sleeps); an
    exception is a value of type [exn].  The remote side is a function
    [transport] from the journal so far and the request to what
    [Session.request] does: return a response or raise. *)

From Stdlib Require Import ZArith Ascii String Lia.
From Stdlib Require Import Floats.SpecFloat.
From stdpp Require Import base option list gmap strings pretty.

#[local] Set Warnings "-register-all".
#[local] Open Scope Z_scope.

(* ------------------------------------------------------------------ *)
(** ** Python values *)

(** What [resp.json()] can return, and what request payloads are made of.
    A character of a [string] stands for one character of a Python [str]. *)
Inductive pyval : Type :=
  | PyNone
  | PyBool (b : bool)
  | PyInt (z : Z)
  | PyFloat (f : spec_float)
  | PyStr (s : string)
  | PyList (l : list pyval)
  | PyDict (d : gmap string pyval).

(* ------------------------------------------------------------------ *)
(** ** Exceptions *)

(** The four exception classes the module defines (lines 36-53).
    [OshiBotError] is the base class of the other three. *)
Inductive sdk_class : Type :=
  | OshiBotError
  | OshiAuthError
  | OshiRateLimitError
  | OshiGroupError.

(** Exceptions the module does not define but that cross its code: those
    raised by the [requests] library and by the interpreter. *)
Inductive foreign_class : Type :=
  | ConnectionError     (* requests.ConnectionError, not a timeout *)
  | ConnectTimeout      (* subclass of both ConnectionError and Timeout *)
  | ReadTimeout         (* requests.Timeout that is not a ConnectionError *)
  | RequestException    (* any other requests exception, e.g. TooManyRedirects *)
  | AttributeError
  | KeyError
  | TypeError
  | KeyboardInterrupt.  (* a BaseException that is not an Exception *)

(** An exception value.  An SDK error carries its single constructor
    argument; the payload of a foreign exception is not modelled. *)
Inductive exn : Type :=
  | SdkError (c : sdk_class) (arg : pyval)
  | PyError (c : foreign_class).

(** [except requests.ConnectionError] *)
Definition is_ConnectionError (e : exn) : bool :=
  match e with
  | PyError ConnectionError | PyError ConnectTimeout => true
  | _ => false
  end.

(** [except requests.Timeout] *)
Definition is_Timeout (e : exn) : bool :=
  match e with
  | PyError ConnectTimeout | PyError ReadTimeout => true
  | _ => false
  end.

(** [except Exception] *)
Definition is_Exception (e : exn) : bool :=
  match e with
  | PyError KeyboardInterrupt => false
  | _ => true
  end.

(** [except OshiBotError]: the base class and its three subclasses. *)
Definition is_OshiBotError (e : exn) : bool :=
  match e with
  | SdkError _ _ => true
  | PyError _ => false
  end.

(* ------------------------------------------------------------------ *)
(** ** The client instance, requests and responses *)

(** The session, as far as the constructor writes to it: the header
    entries it sets. *)
Record Session : Type := mkSession { headers : gmap string string }.

(** The attributes [__init__] sets (lines 79-87). *)
Record OshiBot : Type := mkOshiBot {
  token : string;
  base_url : string;
  timeout : Z;
  auto_retry : bool;
  _session : Session
}.

(** The arguments of one [Session.request(method, url, **kwargs)] call. *)
Record Request : Type := mkRequest {
  req_method : string;
  req_url : string;
  req_kwargs : gmap string pyval
}.

(** A response as far as [_request] looks at it: [json = None] stands for
    [resp.json()] raising [ValueError]. *)
Record Response : Type := mkResponse {
  status_code : Z;
  json : option pyval
}.

(** What a call of [Session.request] does. *)
Inductive reply : Type :=
  | Returned (resp : Response)
  | Failed (c : foreign_class).

Inductive event : Type :=
  | EvRequest (r : Request)
  | EvWarning (msg : string)
  | EvSleep (seconds : Z).

Record State : Type := mkState {
  self : OshiBot;
  journal : list event
}.

(* ------------------------------------------------------------------ *)
(** ** The execution monad *)

Inductive outcome (A : Type) : Type :=
  | Return (a : A)
  | Raise (e : exn).
Arguments Return {A} a.
Arguments Raise {A} e.

Definition Exec (A : Type) : Type := State -> outcome A * State.

#[global] Instance Exec_ret : MRet Exec := λ A a st, (Return a, st).

#[global] Instance Exec_bind : MBind Exec := λ A B k m st,
  match m st with
  | (Return a, st') => k a st'
  | (Raise e, st') => (Raise e, st')
  end.

#[global] Instance Exec_fmap : FMap Exec := λ A B f m st,
  match m st with
  | (Return a, st') => (Return (f a), st')
  | (Raise e, st') => (Raise e, st')
  end.

Definition raise {A : Type} (e : exn) : Exec A := λ st, (Raise e, st).

(** [try: body except ...: handler]; the handler re-raises what its
    [except] clauses do not match. *)
Definition try_except {A : Type} (body : Exec A) (handler : exn -> Exec A) : Exec A :=
  λ st,
  match body st with
  | (Return a, st') => (Return a, st')
  | (Raise e, st') => handler e st'
  end.

(** Reading an attribute of [self]. *)
Definition read {A : Type} (field : OshiBot -> A) : Exec A :=
  λ st, (Return (field (self st)), st).

Definition emit (ev : event) : Exec unit :=
  λ st, (Return tt, mkState (self st) (journal st ++ [ev])).

Definition logger_warning (msg : string) : Exec unit := emit (EvWarning msg).

Definition time_sleep (seconds : Z) : Exec unit := emit (EvSleep seconds).

(* ------------------------------------------------------------------ *)
(** ** Operations on Python values *)

(** [kwargs.setdefault(key, v)] *)
Definition setdefault (key : string) (v : pyval) (kwargs : gmap string pyval)
  : gmap string pyval :=
  match kwargs !! key with
  | Some _ => kwargs
  | None => <[key := v]> kwargs
  end.

(** [data.get(key, dflt)]: only a dict has the method. *)
Definition py_get (data : pyval) (key : string) (dflt : pyval) : Exec pyval :=
  match data with
  | PyDict d => mret (default dflt (d !! key))
  | _ => raise (PyError AttributeError)
  end.

(** [obj[key]] with a string key. *)
Definition py_getitem (obj : pyval) (key : string) : Exec pyval :=
  match obj with
  | PyDict d =>
      match d !! key with
      | Some v => mret v
      | None => raise (PyError KeyError)
      end
  | _ => raise (PyError TypeError)
  end.

Fixpoint chars (s : string) : list pyval :=
  match s with
  | EmptyString => []
  | String c s' => PyStr (String c EmptyString) :: chars s'
  end.

(** The items a [for] loop over the value visits; the keys of a dict come
    in the order of the map. *)
Definition py_iter (v : pyval) : Exec (list pyval) :=
  match v with
  | PyList l => mret l
  | PyStr s => mret (chars s)
  | PyDict d => mret (PyStr <$> (map_to_list d).*1)
  | _ => raise (PyError TypeError)
  end.

(** [s.rstrip("/")] *)
Fixpoint rstrip_slash (s : string) : string :=
  match s with
  | EmptyString => EmptyString
  | String c s' =>
      match rstrip_slash s' with
      | EmptyString => if Ascii.eqb c "/"%char then EmptyString else String c EmptyString
      | r => String c r
      end
  end.

(** [s[:n]] *)
Definition py_prefix (n : nat) (s : string) : string := substring 0 n s.

(* ------------------------------------------------------------------ *)
(** ** Construction *)

Definition default_base_url : string := "https://oshi-messenger.com".
Definition default_timeout : Z := 10.
Definition default_auto_retry : bool := true.

Definition sdk_headers : gmap string string :=
  <["Content-Type" := "application/json"]>
  (<["User-Agent" := "OSHI-Bot-SDK/1.0 Python"]> ∅).

(** [OshiBot.__init__] (lines 72-87). *)
Definition __init__ (token base_url : string) (timeout : Z) (auto_retry : bool)
  : OshiBot :=
  {| token := token;
     base_url := rstrip_slash base_url;
     timeout := timeout;
     auto_retry := auto_retry;
     _session := mkSession sdk_headers |}.

(** [OshiBot.__repr__] (lines 289-290). *)
Definition __repr__ (bot : OshiBot) : string :=
  "OshiBot(token='" +:+ py_prefix 8 (token bot) +:+ "...', base_url='"
    +:+ base_url bot +:+ "')".

(* ------------------------------------------------------------------ *)
(** ** The request executor and the operations built on it *)

Section Executor.

(** The network and the server: what the next [Session.request] call does,
    given everything that has been observed so far. *)
Variable transport : list event -> Request -> reply.

(** [str(v)] for a value that is not a [str]. *)
Variable repr_of : pyval -> string.

Definition py_str (v : pyval) : string :=
  match v with
  | PyStr s => s
  | _ => repr_of v
  end.

(** [self._session.request(method, url, **kwargs)] *)
Definition session_request (method url : string) (kwargs : gmap string pyval)
  : Exec Response :=
  λ st,
  let rq := mkRequest method url kwargs in
  let st' := mkState (self st) (journal st ++ [EvRequest rq]) in
  match transport (journal st) rq with
  | Returned resp => (Return resp, st')
  | Failed c => (Raise (PyError c), st')
  end.

(** [OshiBot._request] (lines 248-287). *)
Definition _request (method endpoint : string) (kwargs : gmap string pyval)
  : Exec pyval :=
  base ← read base_url;
  let url := base +:+ endpoint in
  tmo ← read timeout;
  let kwargs := setdefault "timeout" (PyInt tmo) kwargs in
  resp ← try_except (session_request method url kwargs)
    (λ e,
       if is_ConnectionError e then
         raise (SdkError OshiBotError (PyStr ("Connection failed: " +:+ url)))
       else if is_Timeout e then
         t ← read timeout;
         raise (SdkError OshiBotError
                  (PyStr ("Request timed out after " +:+ pretty t +:+ "s")))
       else raise e);
  (* Handle rate limiting with auto-retry *)
  resp ←
    (if status_code resp =? 429 then
       resp ←
         (retry ← read auto_retry;
          if retry : bool then
            logger_warning "Rate limited, waiting 5s before retry...";;
            time_sleep 5;;
            try_except (session_request method url kwargs)
              (λ e, if is_Exception e then mret resp else raise e)
          else mret resp);
       if status_code resp =? 429 then
         raise (SdkError OshiRateLimitError
                  (PyStr "Rate limit: max 60 messages/minute"))
       else mret resp
     else mret resp);
  (* Parse response *)
  data ←
    match json resp with
    | Some data => mret data
    | None =>
        raise (SdkError OshiBotError
                 (PyStr ("Invalid response from server (HTTP "
                           +:+ pretty (status_code resp) +:+ ")")))
    end;
  (* Handle errors *)
  if status_code resp =? 401 then
    msg ← py_get data "error" (PyStr "Invalid bot token");
    raise (SdkError OshiAuthError msg)
  else if status_code resp =? 403 then
    msg ← py_get data "error" (PyStr "Bot not assigned to group");
    raise (SdkError OshiGroupError msg)
  else if status_code resp =? 404 then
    msg ← py_get data "error" (PyStr "Not found");
    raise (SdkError OshiBotError msg)
  else if status_code resp >=? 400 then
    msg ← py_get data "error" (PyStr ("HTTP " +:+ pretty (status_code resp)));
    raise (SdkError OshiBotError msg)
  else mret data.

(** [OshiBot.send] (lines 93-118).  The group identifier is whatever the
    caller passes: [send_to_all_groups] passes a decoded [id] entry. *)
Definition send (group_id : pyval) (content : string) : Exec pyval :=
  tok ← read token;
  let payload : gmap string pyval :=
    <["token" := PyStr tok]>
    (<["groupId" := group_id]>
    (<["content" := PyStr content]> ∅)) in
  _request "POST" "/api/bot/send" {["json" := PyDict payload]}.

(** [OshiBot.info] (lines 120-133). *)
Definition info : Exec pyval :=
  tok ← read token;
  _request "GET" "/api/bot/info" {["params" := PyDict {["token" := PyStr tok]}]}.

(** [OshiBot.register] (lines 135-159); [groups or []] is the empty list
    for [None]. *)
Definition register (bot_name owner_public_key : string)
    (groups : option (list pyval)) : Exec pyval :=
  tok ← read token;
  let payload : gmap string pyval :=
    <["token" := PyStr tok]>
    (<["botName" := PyStr bot_name]>
    (<["ownerPublicKey" := PyStr owner_public_key]>
    (<["groups" := PyList (default [] groups)]> ∅))) in
  _request "POST" "/api/bot/register" {["json" := PyDict payload]}.

(** [OshiBot.update_groups] (lines 161-175). *)
Definition update_groups (groups : list pyval) : Exec pyval :=
  tok ← read token;
  let payload : gmap string pyval :=
    <["token" := PyStr tok]> (<["groups" := PyList groups]> ∅) in
  _request "POST" "/api/bot/update-groups" {["json" := PyDict payload]}.

(** [OshiBot.unregister] (lines 177-184). *)
Definition unregister : Exec pyval :=
  tok ← read token;
  _request "DELETE" "/api/bot/unregister"
    {["params" := PyDict {["token" := PyStr tok]}]}.

(** [OshiBot.list_bots] (lines 186-193). *)
Definition list_bots : Exec pyval :=
  _request "GET" "/api/bot/list" ∅.

(** The record appended for a group whose send raised an SDK error with
    argument [arg] (line 221); [str(e)] is [str] of that argument. *)
Definition failure_record (group_id : pyval) (arg : pyval) : pyval :=
  PyDict (<["success" := PyBool false]>
          (<["groupId" := group_id]>
          (<["error" := PyStr (py_str arg)]> ∅))).

(** The body of the [for] loop of [send_to_all_groups] (lines 216-221),
    over the groups still to visit, with the [results] list so far. *)
Fixpoint send_each (content : string) (groups : list pyval) (results : list pyval)
  : Exec (list pyval) :=
  match groups with
  | [] => mret results
  | group :: rest =>
      results ←
        try_except
          (gid ← py_getitem group "id";
           result ← send gid content;
           mret (results ++ [result]))
          (λ e,
             match e with
             | SdkError _ arg =>            (* except OshiBotError as e *)
                 gid ← py_getitem group "id";
                 mret (results ++ [failure_record gid arg])
             | PyError _ => raise e
             end);
      send_each content rest results
  end.

(** [OshiBot.send_to_all_groups] (lines 199-222). *)
Definition send_to_all_groups (content : string) : Exec (list pyval) :=
  bot_info ← info;
  bot ← py_get bot_info "bot" (PyDict ∅);
  groups ← py_get bot "groups" (PyList []);
  groups ← py_iter groups;
  send_each content groups [].

(** [OshiBot.get_groups] (lines 224-232). *)
Definition get_groups : Exec pyval :=
  bot_info ← info;
  bot ← py_get bot_info "bot" (PyDict ∅);
  py_get bot "groups" (PyList []).

(** [OshiBot.get_stats] (lines 234-242). *)
Definition get_stats : Exec pyval :=
  bot_info ← info;
  bot ← py_get bot_info "bot" (PyDict ∅);
  py_get bot "stats" (PyDict ∅).

(** The methods of a client instance, with their arguments. *)
Inductive operation : Type :=
  | OpSend (group_id : pyval) (content : string)
  | OpInfo
  | OpRegister (bot_name owner_public_key : string) (groups : option (list pyval))
  | OpUpdateGroups (groups : list pyval)
  | OpUnregister
  | OpListBots
  | OpSendToAllGroups (content : string)
  | OpGetGroups
  | OpGetStats
  | OpRequest (method endpoint : string) (kwargs : gmap string pyval)
  | OpRepr.

(** Calling a method: the final outcome (the returned value does not
    matter here, only whether it returned) and the final state. *)
Definition call (op : operation) : Exec pyval :=
  match op with
  | OpSend group_id content => send group_id content
  | OpInfo => info
  | OpRegister bot_name key groups => register bot_name key groups
  | OpUpdateGroups groups => update_groups groups
  | OpUnregister => unregister
  | OpListBots => list_bots
  | OpSendToAllGroups content => PyList <$> send_to_all_groups content
  | OpGetGroups => get_groups
  | OpGetStats => get_stats
  | OpRequest method endpoint kwargs => _request method endpoint kwargs
  | OpRepr => PyStr <$> read __repr__
  end.

End Executor.

(* ------------------------------------------------------------------ *)
(** ** Vocabulary for the statements *)

(** The request [_request] hands to the session: the URL is the base
    address followed by the endpoint, and the keyword arguments are the
    caller's with the timeout defaulted (lines 249-250). *)
Definition request_of (bot : OshiBot) (method endpoint : string)
    (kwargs : gmap string pyval) : Request :=
  mkRequest method (base_url bot +:+ endpoint)
    (setdefault "timeout" (PyInt (timeout bot)) kwargs).

(** What the journal gains between the first attempt and the retry. *)
Definition retry_pause : list event :=
  [EvWarning "Rate limited, waiting 5s before retry..."; EvSleep 5].

Definition rate_limit_error : exn :=
  SdkError OshiRateLimitError (PyStr "Rate limit: max 60 messages/minute").

(** Number of HTTP requests in a run of events. *)
Fixpoint attempts (evs : list event) : nat :=
  match evs with
  | [] => 0%nat
  | EvRequest _ :: evs' => S (attempts evs')
  | _ :: evs' => attempts evs'
  end.

(** Total seconds slept in a run of events. *)
Fixpoint slept (evs : list event) : Z :=
  match evs with
  | [] => 0
  | EvSleep n :: evs' => n + slept evs'
  | _ :: evs' => slept evs'
  end.

Definition advance (st : State) (evs : list event) : State :=
  mkState (self st) (journal st ++ evs).

(** [answers transport st rq r evs]: started in [st], the transport phase
    of [_request] (lines 252-269) ends with response [r] in hand for
    parsing, having added [evs] to the journal.  Either the first attempt
    returned [r] and [r] is not a 429, or the first attempt returned a 429,
    retry is enabled and the retried attempt returned [r], not a 429. *)
Inductive answers (transport : list event -> Request -> reply) (st : State)
    (rq : Request) : Response -> list event -> Prop :=
  | answers_first r :
      transport (journal st) rq = Returned r ->
      status_code r ≠ 429 ->
      answers transport st rq r [EvRequest rq]
  | answers_retry r1 r :
      transport (journal st) rq = Returned r1 ->
      status_code r1 = 429 ->
      auto_retry (self st) = true ->
      transport (journal st ++ EvRequest rq :: retry_pause) rq = Returned r ->
      status_code r ≠ 429 ->
      answers transport st rq r (EvRequest rq :: retry_pause ++ [EvRequest rq]).

(** Lines 271-287 of [_request] as a function of the response in hand;
    [request_answered] below shows [_request] continues with it. *)
Definition parse_and_classify (resp : Response) : Exec pyval :=
  data ←
    match json resp with
    | Some data => mret data
    | None =>
        raise (SdkError OshiBotError
                 (PyStr ("Invalid response from server (HTTP "
                           +:+ pretty (status_code resp) +:+ ")")))
    end;
  if status_code resp =? 401 then
    msg ← py_get data "error" (PyStr "Invalid bot token");
    raise (SdkError OshiAuthError msg)
  else if status_code resp =? 403 then
    msg ← py_get data "error" (PyStr "Bot not assigned to group");
    raise (SdkError OshiGroupError msg)
  else if status_code resp =? 404 then
    msg ← py_get data "error" (PyStr "Not found");
    raise (SdkError OshiBotError msg)
  else if status_code resp >=? 400 then
    msg ← py_get data "error" (PyStr ("HTTP " +:+ pretty (status_code resp)));
    raise (SdkError OshiBotError msg)
  else mret data.

(** [contains needle hay]: [needle] occurs in [hay] as a contiguous run. *)
Fixpoint contains (needle hay : string) : bool :=
  String.prefix needle hay ||
  match hay with
  | EmptyString => false
  | String _ hay' => contains needle hay'
  end.

(** Calling [send] for each group identifier in turn, whatever each call
    does: the outcomes in order and the state after the last call. *)
Fixpoint send_in_turn (transport : list event -> Request -> reply)
    (content : string) (ids : list pyval) (st : State)
  : list (outcome pyval) * State :=
  match ids with
  | [] => ([], st)
  | gid :: ids' =>
      let '(o, st') := send transport gid content st in
      let '(os, st'') := send_in_turn transport content ids' st' in
      (o :: os, st'')
  end.

(** A group descriptor: a dict with an [id] entry. *)
Definition group_with_id (group gid : pyval) : Prop :=
  ∃ d, group = PyDict d ∧ d !! "id" = Some gid.

(** The display form tells the whole token. *)
Definition reveals_token (bot : OshiBot) : bool :=
  contains (token bot) (__repr__ bot).

(** A computation that leaves the client instance as it found it. *)
Definition keeps_self {A : Type} (m : Exec A) : Prop :=
  ∀ st, self (m st).2 = self st.

(** The entry of the result list for the group [gid] whose send ended as
    [o]; the last case is not reached, a foreign exception leaves the loop. *)
Definition entry (repr_of : pyval -> string) (gid : pyval) (o : outcome pyval)
  : pyval :=
  match o with
  | Return body => body
  | Raise (SdkError _ arg) => failure_record repr_of gid arg
  | Raise (PyError _) => PyNone
  end.

Definition classified (o : outcome pyval) : Prop :=
  ∀ e, o = Raise e -> is_OshiBotError e = true.

(* ------------------------------------------------------------------ *)
(** ** Scenarios *)

Definition sample_token : string := "a1b2c3d4e5f6g7h8i9j0k1l2m3n4o5p6".

(** [OshiBot(token=sample_token)] with the defaults of the constructor. *)
Definition sample_bot : OshiBot :=
  __init__ sample_token default_base_url default_timeout default_auto_retry.

(** [OshiBot(token=sample_token, auto_retry=False)] *)
Definition patient_bot : OshiBot :=
  __init__ sample_token default_base_url default_timeout false.

(** [OshiBot(token="dummy")], as the command line does for [list]. *)
Definition dummy_bot : OshiBot :=
  __init__ "dummy" default_base_url default_timeout default_auto_retry.

Definition fresh (bot : OshiBot) : State := mkState bot [].

(** A transport that does the same thing at every attempt. *)
Definition always (o : reply) : list event -> Request -> reply := λ _ _, o.

(** A transport that does [o1] at the first attempt and [o2] afterwards. *)
Definition first_then (o1 o2 : reply) : list event -> Request -> reply :=
  λ journal _, match journal with [] => o1 | _ => o2 end.

Definition error_body (msg : string) : pyval := PyDict {["error" := PyStr msg]}.

Definition sent_body : pyval :=
  PyDict (<["success" := PyBool true]> (<["delivered" := PyInt 3]> ∅)).

Definition too_many_requests : Response :=
  mkResponse 429 (Some (error_body "Too many requests")).

Definition three_groups : list pyval :=
  [PyDict {["id" := PyStr "g1"]}; PyDict {["id" := PyStr "g2"]};
   PyDict {["id" := PyStr "g3"]}].

Definition info_body : gmap string pyval :=
  {["bot" := PyDict {["groups" := PyList three_groups]}]}.

(** A server on which the bot has three groups and is refused in [g2]. *)
Definition refusing_g2 : list event -> Request -> reply :=
  λ _ rq,
  if String.eqb (req_method rq) "GET" then
    Returned (mkResponse 200 (Some (PyDict info_body)))
  else
    match req_kwargs rq !! "json" with
    | Some (PyDict payload) =>
        match payload !! "groupId" with
        | Some (PyStr "g2") =>
            Returned (mkResponse 403 (Some (error_body "Bot not assigned to group")))
        | _ => Returned (mkResponse 200 (Some sent_body))
        end
    | _ => Returned (mkResponse 400 (Some (error_body "Missing body")))
    end.

(** [str] of a value that is not a string, for the scenarios. *)
Definition no_repr : pyval -> string := λ _, "".

(* ------------------------------------------------------------------ *)
(** ** Scripts: console output and process exit

    The command line of [oshi_bot.py] and the example [hello_bot.py] print
    and call [sys.exit].  A script runs in [Prog]: its world is the
    journal of network effects and the lines printed so far; it ends with
    a value, with an exception on its way up, or with [SystemExit]. *)

Inductive signal : Type :=
  | Exception (e : exn)
  | SystemExit (code : Z).

Inductive finish (A : Type) : Type :=
  | Done (a : A)
  | Stopped (s : signal).
Arguments Done {A} a.
Arguments Stopped {A} s.

Record World : Type := mkWorld {
  network : list event;
  stdout : list string;
  stderr : list string
}.

Definition Prog (A : Type) : Type := World -> finish A * World.

#[global] Instance Prog_ret : MRet Prog := λ A a w, (Done a, w).

#[global] Instance Prog_bind : MBind Prog := λ A B k m w,
  match m w with
  | (Done a, w') => k a w'
  | (Stopped s, w') => (Stopped s, w')
  end.

Definition stop {A : Type} (s : signal) : Prog A := λ w, (Stopped s, w).

(** [sys.exit(code)] *)
Definition sys_exit {A : Type} (code : Z) : Prog A := stop (SystemExit code).

(** [try: body except ...: handler] in a script; the handler passes on
    what its [except] clauses do not match. *)
Definition prog_try {A : Type} (body : Prog A) (handler : signal -> Prog A)
  : Prog A :=
  λ w,
  match body w with
  | (Done a, w') => (Done a, w')
  | (Stopped s, w') => handler s w'
  end.

(** [print(line)] *)
Definition print (line : string) : Prog unit :=
  λ w, (Done tt, mkWorld (network w) (stdout w ++ [line]) (stderr w)).

(** [print(line, file=sys.stderr)] *)
Definition print_err (line : string) : Prog unit :=
  λ w, (Done tt, mkWorld (network w) (stdout w) (stderr w ++ [line])).

(** Calling a method of [bot] from a script: the method runs on the
    instance with the journal of the world; the script gets the result
    and the instance as the call leaves it. *)
Definition invoke {A : Type} (bot : OshiBot) (m : Exec A) : Prog (A * OshiBot) :=
  λ w,
  match m (mkState bot (network w)) with
  | (Return a, st) =>
      (Done (a, self st), mkWorld (journal st) (stdout w) (stderr w))
  | (Raise e, st) =>
      (Stopped (Exception e), mkWorld (journal st) (stdout w) (stderr w))
  end.

(** A Python operation that touches nothing, used in a script. *)
Definition lift {A : Type} (o : outcome A) : Prog A :=
  λ w,
  match o with
  | Return a => (Done a, w)
  | Raise e => (Stopped (Exception e), w)
  end.

(** [data.get(key, dflt)] *)
Definition dict_get (data : pyval) (key : string) (dflt : pyval) : outcome pyval :=
  match data with
  | PyDict d => Return (default dflt (d !! key))
  | _ => Raise (PyError AttributeError)
  end.

(** [obj[key]] *)
Definition getitem (obj : pyval) (key : string) : outcome pyval :=
  match obj with
  | PyDict d =>
      match d !! key with
      | Some v => Return v
      | None => Raise (PyError KeyError)
      end
  | _ => Raise (PyError TypeError)
  end.

(** The items of [for x in v]. *)
Definition items_of (v : pyval) : outcome (list pyval) :=
  match v with
  | PyList l => Return l
  | PyStr s => Return (chars s)
  | PyDict d => Return (PyStr <$> (map_to_list d).*1)
  | _ => Raise (PyError TypeError)
  end.

(** [len(v)] *)
Definition py_len (v : pyval) : outcome nat :=
  match v with
  | PyList l => Return (length l)
  | PyStr s => Return (String.length s)
  | PyDict d => Return (size d)
  | _ => Raise (PyError TypeError)
  end.

(** [for x in items: body(x)] *)
Fixpoint for_each {A : Type} (items : list A) (body : A -> Prog unit) : Prog unit :=
  match items with
  | [] => mret tt
  | x :: rest => body x;; for_each rest body
  end.

(** Truth value of a string or [None]. *)
Definition truthy (x : option string) : bool :=
  match x with
  | Some (String _ _) => true
  | _ => false
  end.

(** [a or b] *)
Definition py_or (a b : option string) : option string :=
  if truthy a then a else b.

Definition py_of_option (x : option string) : pyval :=
  match x with
  | Some s => PyStr s
  | None => PyNone
  end.

(** The double quote character, as a string. *)
Definition dq : string := String (ascii_of_nat 34) EmptyString.

(** [help_text] of the command line (lines 370-400). *)
Definition help_text : string :=
  "
OSHI Bot SDK - Command Line Interface

Usage:
    python oshi_bot.py send    TOKEN GROUP_ID " +:+ dq +:+
  "message" +:+ dq +:+
  "
    python oshi_bot.py info    TOKEN
    python oshi_bot.py groups  TOKEN
    python oshi_bot.py stats   TOKEN
    python oshi_bot.py list
    python oshi_bot.py help

Examples:
    # Send a message
    python oshi_bot.py send a1b2c3d4e5f6g7h8... 550e8400-... " +:+ dq +:+
  "Hello from CLI!" +:+ dq +:+
  "

    # Get bot info
    python oshi_bot.py info a1b2c3d4e5f6g7h8...

    # List all bots
    python oshi_bot.py list

    # Python code:
    from oshi_bot import OshiBot
    bot = OshiBot(token=" +:+ dq +:+
  "YOUR_TOKEN" +:+ dq +:+
  ")
    bot.send(" +:+ dq +:+
  "GROUP_ID" +:+ dq +:+
  ", " +:+ dq +:+
  "Hello!" +:+ dq +:+
  ")

    # MoltBot integration:
    from oshi_bot import OshiMoltBotBridge
    bridge = OshiMoltBotBridge(oshi_token=" +:+ dq +:+
  "TOKEN" +:+ dq +:+
  ", default_group=" +:+ dq +:+
  "GROUP_ID" +:+ dq +:+
  ")
    bridge.send(" +:+ dq +:+
  "Hello from MoltBot!" +:+ dq +:+
  ")
    ".

(** The MoltBot bridge (lines 297-359). *)
Module Bridge.

Record OshiMoltBotBridge : Type := mkBridge {
  bot : OshiBot;
  default_group : option string
}.

(** [OshiMoltBotBridge.__init__] (lines 334-341): the bot gets the default
    timeout and retry flag. *)
Definition __init__ (oshi_token : string) (default_group : option string)
    (base_url : string) : OshiMoltBotBridge :=
  {| bot := __init__ oshi_token base_url default_timeout default_auto_retry;
     default_group := default_group |}.

(** [OshiMoltBotBridge.__repr__] (lines 358-359); the bot is formatted by
    its own [__repr__]. *)
Definition __repr__ (this : OshiMoltBotBridge) : string :=
  "OshiMoltBotBridge(bot=" +:+ __repr__ (bot this) +:+ ", default_group='"
    +:+ match default_group this with Some g => g | None => "None" end
    +:+ "')".

Section Methods.

Variable transport : list event -> Request -> reply.
Variable repr_of : pyval -> string.

(** A method of the bridge runs on the bridge's bot. *)
Definition on_bot {A : Type} (this : OshiMoltBotBridge) (m : Exec A)
  : list event -> outcome A * State :=
  λ journal, m (mkState (bot this) journal).

(** [OshiMoltBotBridge.send] (lines 343-348). *)
Definition send (this : OshiMoltBotBridge) (message : string)
    (group_id : option string) : list event -> outcome pyval * State :=
  on_bot this
    (let target := py_or group_id (default_group this) in
     if negb (truthy target) then
       raise (SdkError OshiBotError
                (PyStr "No group_id specified and no default_group set"))
     else send transport (py_of_option target) message).

(** [OshiMoltBotBridge.broadcast] (lines 350-352). *)
Definition broadcast (this : OshiMoltBotBridge) (message : string)
  : list event -> outcome (list pyval) * State :=
  on_bot this (send_to_all_groups transport repr_of message).

(** [OshiMoltBotBridge.get_info] (lines 354-356). *)
Definition get_info (this : OshiMoltBotBridge)
  : list event -> outcome pyval * State :=
  on_bot this (info transport).

End Methods.

End Bridge.

Section Scripts.

Variable transport : list event -> Request -> reply.
Variable repr_of : pyval -> string.

(** [json.dumps(v, indent=2)] *)
Variable json_dumps : pyval -> string.

(** [sys.argv[i]]; the script indexes only below the length it has tested. *)
Definition argv_at (argv : list string) (i : nat) : string :=
  default EmptyString (argv !! i).

(** [OshiBot(token=tok)] with the defaults of the constructor. *)
Definition new_bot (tok : string) : OshiBot :=
  __init__ tok default_base_url default_timeout default_auto_retry.

(** The command line of [oshi_bot.py] (lines 366-444), given [sys.argv]. *)
Definition cli (argv : list string) : Prog unit :=
  if (length argv <? 2)%nat || String.eqb (argv_at argv 1) "help" then
    print help_text;;
    sys_exit 0
  else
    let cmd := argv_at argv 1 in
    prog_try
      (if String.eqb cmd "send" && (5 <=? length argv)%nat then
         let bot := new_bot (argv_at argv 2) in
         '(result, _) ← invoke bot
            (send transport (PyStr (argv_at argv 3)) (argv_at argv 4));
         print (json_dumps result)
       else if String.eqb cmd "info" && (3 <=? length argv)%nat then
         let bot := new_bot (argv_at argv 2) in
         '(result, _) ← invoke bot (info transport);
         print (json_dumps result)
       else if String.eqb cmd "groups" && (3 <=? length argv)%nat then
         let bot := new_bot (argv_at argv 2) in
         '(groups, _) ← invoke bot (get_groups transport);
         groups ← lift (items_of groups);
         for_each groups (λ g,
           name ← lift (getitem g "name");
           gid ← lift (getitem g "id");
           members ← lift (dict_get g "memberCount" (PyStr "?"));
           print ("  " +:+ py_str repr_of name +:+ " (id: " +:+ py_str repr_of gid
                    +:+ ", members: " +:+ py_str repr_of members +:+ ")"))
       else if String.eqb cmd "stats" && (3 <=? length argv)%nat then
         let bot := new_bot (argv_at argv 2) in
         '(stats, _) ← invoke bot (get_stats transport);
         sent ← lift (dict_get stats "messagesSent" (PyInt 0));
         print ("  Messages sent: " +:+ py_str repr_of sent);;
         last ← lift (dict_get stats "lastActivity" (PyStr "never"));
         print ("  Last activity: " +:+ py_str repr_of last)
       else if String.eqb cmd "list" then
         let bot := new_bot "dummy" in
         '(result, _) ← invoke bot (list_bots transport);
         bots ← lift (dict_get result "bots" (PyList []));
         bots ← lift (items_of bots);
         for_each bots (λ b,
           name ← lift (getitem b "botName");
           prefix ← lift (getitem b "tokenPrefix");
           sent ← lift (getitem b "messagesSent");
           groups ← lift (getitem b "groups");
           print ("  " +:+ py_str repr_of name +:+ " (" +:+ py_str repr_of prefix
                    +:+ ") - " +:+ py_str repr_of sent +:+ " msgs, "
                    +:+ py_str repr_of groups +:+ " groups"))
       else
         print ("Unknown command: " +:+ cmd);;
         print help_text;;
         sys_exit 1)
      (λ s,
         match s with
         | Exception (SdkError _ arg) =>          (* except OshiBotError as e *)
             print_err ("Error: " +:+ py_str repr_of arg);;
             sys_exit 1
         | _ => stop s
         end).

End Scripts.

(** The example [examples/hello_bot.py]. *)
Module hello_bot.

Definition BOT_TOKEN : string := "YOUR_BOT_TOKEN".
Definition GROUP_ID : string := "YOUR_GROUP_ID".

Section Main.

Variable transport : list event -> Request -> reply.
Variable repr_of : pyval -> string.

(** [main] (lines 32-71). *)
Definition main : Prog unit :=
  let bot := new_bot BOT_TOKEN in
  print ("SDK initialized: " +:+ __repr__ bot);;
  (* Step 1: Fetch bot info *)
  bot ← prog_try
    ('(info, bot) ← invoke bot (info transport);
     bot_data ← lift (dict_get info "bot" (PyDict ∅));
     name ← lift (dict_get bot_data "botName" (PyStr "unknown"));
     print ("Bot name: " +:+ py_str repr_of name);;
     groups ← lift (dict_get bot_data "groups" (PyList []));
     n ← lift (py_len groups);
     print ("Registered groups: " +:+ pretty n);;
     groups ← lift (dict_get bot_data "groups" (PyList []));
     groups ← lift (items_of groups);
     for_each groups (λ g,
       name ← lift (getitem g "name");
       members ← lift (dict_get g "memberCount" (PyStr "?"));
       print ("  - " +:+ py_str repr_of name +:+ " (" +:+ py_str repr_of members
                +:+ " members)"));;
     mret bot)
    (λ s,
       match s with
       | Exception (SdkError OshiAuthError _) =>
           print "ERROR: Invalid bot token. Check your token in the OSHI app.";;
           sys_exit 1
       | Exception (SdkError _ arg) =>
           print ("ERROR: Could not fetch bot info: " +:+ py_str repr_of arg);;
           sys_exit 1
       | _ => stop s
       end);
  (* Step 2: Send a message *)
  bot ← prog_try
    ('(result, bot) ← invoke bot
        (send transport (PyStr GROUP_ID) "Hello from OSHI Bot!");
     print "
Message sent successfully!";;
     mid ← lift (dict_get result "messageId" (PyStr "n/a"));
     print ("  Message ID: " +:+ py_str repr_of mid);;
     gname ← lift (dict_get result "groupName" (PyStr "n/a"));
     print ("  Group: " +:+ py_str repr_of gname);;
     delivered ← lift (dict_get result "delivered" (PyInt 0));
     total ← lift (dict_get result "totalMembers" (PyInt 0));
     print ("  Delivered to: " +:+ py_str repr_of delivered +:+ " / "
              +:+ py_str repr_of total +:+ " members");;
     mret bot)
    (λ s,
       match s with
       | Exception (SdkError OshiGroupError _) =>
           print ("ERROR: Bot is not assigned to group " +:+ GROUP_ID +:+ ".");;
           print "  Assign it in the OSHI app under Portal > Bots > Edit.";;
           sys_exit 1
       | Exception (SdkError _ arg) =>
           print ("ERROR: Failed to send message: " +:+ py_str repr_of arg);;
           sys_exit 1
       | _ => stop s
       end);
  (* Step 3: Show stats *)
  '(stats, _) ← invoke bot (get_stats transport);
  print "
Bot stats:";;
  sent ← lift (dict_get stats "messagesSent" (PyInt 0));
  print ("  Total messages sent: " +:+ py_str repr_of sent);;
  last ← lift (dict_get stats "lastActivity" (PyStr "never"));
  print ("  Last activity: " +:+ py_str repr_of last).

(** Lines 33-65 of [main] on their own: the greeting and the first two
    steps, giving the client the last step goes on with;
    [main_in_steps] shows [main] is this followed by [show_stats]. *)
Definition first_steps : Prog OshiBot :=
  let bot := new_bot BOT_TOKEN in
  print ("SDK initialized: " +:+ __repr__ bot);;
  (* Step 1: Fetch bot info *)
  bot ← prog_try
    ('(info, bot) ← invoke bot (info transport);
     bot_data ← lift (dict_get info "bot" (PyDict ∅));
     name ← lift (dict_get bot_data "botName" (PyStr "unknown"));
     print ("Bot name: " +:+ py_str repr_of name);;
     groups ← lift (dict_get bot_data "groups" (PyList []));
     n ← lift (py_len groups);
     print ("Registered groups: " +:+ pretty n);;
     groups ← lift (dict_get bot_data "groups" (PyList []));
     groups ← lift (items_of groups);
     for_each groups (λ g,
       name ← lift (getitem g "name");
       members ← lift (dict_get g "memberCount" (PyStr "?"));
       print ("  - " +:+ py_str repr_of name +:+ " (" +:+ py_str repr_of members
                +:+ " members)"));;
     mret bot)
    (λ s,
       match s with
       | Exception (SdkError OshiAuthError _) =>
           print "ERROR: Invalid bot token. Check your token in the OSHI app.";;
           sys_exit 1
       | Exception (SdkError _ arg) =>
           print ("ERROR: Could not fetch bot info: " +:+ py_str repr_of arg);;
           sys_exit 1
       | _ => stop s
       end);
  (* Step 2: Send a message *)
  prog_try
    ('(result, bot) ← invoke bot
        (send transport (PyStr GROUP_ID) "Hello from OSHI Bot!");
     print "
Message sent successfully!";;
     mid ← lift (dict_get result "messageId" (PyStr "n/a"));
     print ("  Message ID: " +:+ py_str repr_of mid);;
     gname ← lift (dict_get result "groupName" (PyStr "n/a"));
     print ("  Group: " +:+ py_str repr_of gname);;
     delivered ← lift (dict_get result "delivered" (PyInt 0));
     total ← lift (dict_get result "totalMembers" (PyInt 0));
     print ("  Delivered to: " +:+ py_str repr_of delivered +:+ " / "
              +:+ py_str repr_of total +:+ " members");;
     mret bot)
    (λ s,
       match s with
       | Exception (SdkError OshiGroupError _) =>
           print ("ERROR: Bot is not assigned to group " +:+ GROUP_ID +:+ ".");;
           print "  Assign it in the OSHI app under Portal > Bots > Edit.";;
           sys_exit 1
       | Exception (SdkError _ arg) =>
           print ("ERROR: Failed to send message: " +:+ py_str repr_of arg);;
           sys_exit 1
       | _ => stop s
       end).

(** Lines 67-71 of [main] on their own: the last step. *)
Definition show_stats (bot : OshiBot) : Prog unit :=
  '(stats, _) ← invoke bot (get_stats transport);
  print "
Bot stats:";;
  sent ← lift (dict_get stats "messagesSent" (PyInt 0));
  print ("  Total messages sent: " +:+ py_str repr_of sent);;
  last ← lift (dict_get stats "lastActivity" (PyStr "never"));
  print ("  Last activity: " +:+ py_str repr_of last).

End Main.

End hello_bot.

(* ------------------------------------------------------------------ *)
(** ** Further vocabulary *)

(** [n] slashes in a row. *)
Fixpoint slashes (n : nat) : string :=
  match n with
  | O => EmptyString
  | S n' => String "/"%char (slashes n')
  end.

Fixpoint last_char (s : string) : option ascii :=
  match s with
  | EmptyString => None
  | String c EmptyString => Some c
  | String _ s' => last_char s'
  end.

(** Two instances that agree on everything the executor reads: the base
    address, the timeout and the retry flag. *)
Definition same_wire (b1 b2 : OshiBot) : Prop :=
  base_url b1 = base_url b2 ∧ timeout b1 = timeout b2 ∧
  auto_retry b1 = auto_retry b2.

(** The line the [groups] command prints for a group (line 423). *)
Definition group_line (repr_of : pyval -> string) (g : pyval) : string :=
  match g with
  | PyDict d =>
      "  " +:+ py_str repr_of (default PyNone (d !! "name"))
        +:+ " (id: " +:+ py_str repr_of (default PyNone (d !! "id"))
        +:+ ", members: "
        +:+ py_str repr_of (default (PyStr "?") (d !! "memberCount")) +:+ ")"
  | _ => EmptyString
  end.

(** A group descriptor the [groups] command can print: a dict with a
    [name] and an [id]. *)
Definition printable_group (g : pyval) : Prop :=
  ∃ d, g = PyDict d ∧ is_Some (d !! "name") ∧ is_Some (d !! "id").

(* ------------------------------------------------------------------ *)
(** ** Further scenarios *)

(** A server on which the bot has three groups, is refused in [g2] and
    finds [g3] gone. *)
Definition refusing_g2_missing_g3 : list event -> Request -> reply :=
  λ _ rq,
  if String.eqb (req_method rq) "GET" then
    Returned (mkResponse 200 (Some (PyDict info_body)))
  else
    match req_kwargs rq !! "json" with
    | Some (PyDict payload) =>
        match payload !! "groupId" with
        | Some (PyStr "g2") =>
            Returned (mkResponse 403 (Some (error_body "Bot not assigned to group")))
        | Some (PyStr "g3") =>
            Returned (mkResponse 404 (Some (error_body "Group not found")))
        | _ => Returned (mkResponse 200 (Some sent_body))
        end
    | _ => Returned (mkResponse 400 (Some (error_body "Missing body")))
    end.

(** A network on which the bot has three groups and the send to [g2]
    runs into a redirect loop. *)
Definition looping_at_g2 : list event -> Request -> reply :=
  λ _ rq,
  if String.eqb (req_method rq) "GET" then
    Returned (mkResponse 200 (Some (PyDict info_body)))
  else
    match req_kwargs rq !! "json" with
    | Some (PyDict payload) =>
        match payload !! "groupId" with
        | Some (PyStr "g2") => Failed RequestException
        | _ => Returned (mkResponse 200 (Some sent_body))
        end
    | _ => Returned (mkResponse 400 (Some (error_body "Missing body")))
    end.

(** A server whose second group descriptor has a name and no id. *)
Definition nameless_second_group : list event -> Request -> reply :=
  λ _ rq,
  if String.eqb (req_method rq) "GET" then
    Returned (mkResponse 200 (Some (PyDict
      {["bot" := PyDict {["groups" := PyList
         [PyDict {["id" := PyStr "g1"]}; PyDict {["name" := PyStr "Alerts"]};
          PyDict {["id" := PyStr "g3"]}]]}]})))
  else Returned (mkResponse 200 (Some sent_body)).

(** A server that answers the first request with an empty object, the
    second with a sent message and every later one with a 500. *)
Definition failing_third : list event -> Request -> reply :=
  λ journal _,
  match journal with
  | [] => Returned (mkResponse 200 (Some (PyDict ∅)))
  | [_] => Returned (mkResponse 200 (Some sent_body))
  | _ => Returned (mkResponse 500 (Some (error_body "down")))
  end.

(** A server that answers a GET with an empty object and refuses every
    POST. *)
Definition bare_and_refusing : list event -> Request -> reply :=
  λ _ rq,
  if String.eqb (req_method rq) "GET" then
    Returned (mkResponse 200 (Some (PyDict ∅)))
  else Returned (mkResponse 403 (Some (error_body "Bot not assigned to group"))).

(** A server with two named groups. *)
Definition two_named_groups : list pyval :=
  [PyDict (<["id" := PyStr "g1"]> (<["name" := PyStr "Alerts"]>
           (<["memberCount" := PyStr "12"]> ∅)));
   PyDict (<["id" := PyStr "g2"]> {["name" := PyStr "News"]})].

Definition empty_world : World := mkWorld [] [] [].

(* ------------------------------------------------------------------ *)
(** ** Stepping lemmas for the executor *)

#[local] Arguments String.append : simpl never.
#[local] Arguments pretty : simpl never.
#[local] Arguments setdefault : simpl never.

Ltac exec_unfold :=
  unfold mbind, mret, fmap, Exec_bind, Exec_ret, Exec_fmap, read, raise,
    try_except, logger_warning, time_sleep, emit, session_request, py_get.

Ltac exec_simpl := simpl; rewrite <- ?app_assoc; simpl.

Ltac exec_run := exec_unfold; unfold advance, retry_pause; exec_simpl.

(** Use the facts at hand about the transport, the status and the flag. *)
Tactic Notation "exec_with" constr(H) := rewrite H; exec_simpl.
Tactic Notation "exec_with" constr(H1) constr(H2) :=
  exec_with H1; exec_with H2.
Tactic Notation "exec_with" constr(H1) constr(H2) constr(H3) :=
  exec_with H1; exec_with H2; exec_with H3.

Section Stepping.

Variable transport : list event -> Request -> reply.
Variables (method endpoint : string) (kwargs : gmap string pyval).
Variable st : State.

Let rq := request_of (self st) method endpoint kwargs.

(** The first attempt raises: one request, then the handler of the first
    [try] decides (lines 252-257). *)
Lemma request_first_failed c :
  transport (journal st) rq = Failed c ->
  _request transport method endpoint kwargs st =
    ((if is_ConnectionError (PyError c) then
        Raise (SdkError OshiBotError
                 (PyStr ("Connection failed: " +:+ req_url rq)))
      else if is_Timeout (PyError c) then
        Raise (SdkError OshiBotError
                 (PyStr ("Request timed out after "
                           +:+ pretty (timeout (self st)) +:+ "s")))
      else Raise (PyError c)),
     advance st [EvRequest rq]).
Proof.
  intros H. unfold rq, request_of in *.
  unfold _request. exec_run. rewrite H.
  destruct c; reflexivity.
Qed.

(** A response other than a 429 is in hand: the rest is parsing and
    classification. *)
Lemma request_answered r evs :
  answers transport st rq r evs ->
  _request transport method endpoint kwargs st =
    parse_and_classify r (advance st evs).
Proof.
  intros H. unfold rq, request_of in *.
  destruct H as [r H Hs | r1 r H1 Hs1 Hretry H Hs]; simpl in *.
  - apply Z.eqb_neq in Hs.
    unfold _request, parse_and_classify. exec_run.
    exec_with H Hs. reflexivity.
  - apply Z.eqb_neq in Hs. apply Z.eqb_eq in Hs1. unfold retry_pause in H.
    unfold _request, parse_and_classify. exec_run.
    exec_with H1 Hs1 Hretry. exec_with H Hs. reflexivity.
Qed.

(** A 429 with retry disabled (lines 260, 268-269). *)
Lemma request_limited_no_retry r1 :
  transport (journal st) rq = Returned r1 ->
  status_code r1 = 429 ->
  auto_retry (self st) = false ->
  _request transport method endpoint kwargs st =
    (Raise rate_limit_error, advance st [EvRequest rq]).
Proof.
  intros H1 Hs1 Hretry. unfold rq, request_of in *.
  apply Z.eqb_eq in Hs1.
  unfold _request. exec_run.
  exec_with H1 Hs1 Hretry. exec_with Hs1. reflexivity.
Qed.

(** A 429, retry enabled, and the retried attempt returns a 429 again. *)
Lemma request_limited_twice r1 r2 :
  transport (journal st) rq = Returned r1 ->
  status_code r1 = 429 ->
  auto_retry (self st) = true ->
  transport (journal st ++ EvRequest rq :: retry_pause) rq = Returned r2 ->
  status_code r2 = 429 ->
  _request transport method endpoint kwargs st =
    (Raise rate_limit_error,
     advance st (EvRequest rq :: retry_pause ++ [EvRequest rq])).
Proof.
  intros H1 Hs1 Hretry H2 Hs2. unfold rq, request_of, retry_pause in *.
  apply Z.eqb_eq in Hs1, Hs2.
  unfold _request. exec_run.
  exec_with H1 Hs1 Hretry. exec_with H2 Hs2. reflexivity.
Qed.

(** A 429, retry enabled, and the retried attempt raises: an [Exception]
    is dropped and the first response stays in hand (lines 264-269). *)
Lemma request_retry_failed r1 c :
  transport (journal st) rq = Returned r1 ->
  status_code r1 = 429 ->
  auto_retry (self st) = true ->
  transport (journal st ++ EvRequest rq :: retry_pause) rq = Failed c ->
  _request transport method endpoint kwargs st =
    ((if is_Exception (PyError c) then Raise rate_limit_error
      else Raise (PyError c)),
     advance st (EvRequest rq :: retry_pause ++ [EvRequest rq])).
Proof.
  intros H1 Hs1 Hretry H2. unfold rq, request_of, retry_pause in *.
  apply Z.eqb_eq in Hs1.
  unfold _request. exec_run.
  exec_with H1 Hs1 Hretry. exec_with H2.
  destruct c; simpl; rewrite ?Hs1; reflexivity.
Qed.

End Stepping.

(* ------------------------------------------------------------------ *)
(** ** Classification by status code *)

Section Classification.

Variable transport : list event -> Request -> reply.
Variables (method endpoint : string) (kwargs : gmap string pyval).
Variable st : State.

Let rq := request_of (self st) method endpoint kwargs.
Let out := (_request transport method endpoint kwargs st).1.

(** A body that does not parse: the invalid-response error, whatever the
    status (lines 272-275). *)
Lemma unparsed_is_invalid_response r evs :
  answers transport st rq r evs ->
  json r = None ->
  out = Raise (SdkError OshiBotError
                 (PyStr ("Invalid response from server (HTTP "
                           +:+ pretty (status_code r) +:+ ")"))).
Proof.
  intros Ha Hj. unfold out, rq in *.
  rewrite (request_answered _ _ _ _ _ _ _ Ha).
  unfold parse_and_classify. exec_run. rewrite Hj. reflexivity.
Qed.

(** A body that parses to a dict: the status decides, in the order 401,
    403, 404, any other status from 400 up, and success below 400. *)
Lemma classified_by_status r evs d :
  answers transport st rq r evs ->
  json r = Some (PyDict d) ->
  out =
    if status_code r =? 401 then
      Raise (SdkError OshiAuthError (default (PyStr "Invalid bot token") (d !! "error")))
    else if status_code r =? 403 then
      Raise (SdkError OshiGroupError
               (default (PyStr "Bot not assigned to group") (d !! "error")))
    else if status_code r =? 404 then
      Raise (SdkError OshiBotError (default (PyStr "Not found") (d !! "error")))
    else if status_code r >=? 400 then
      Raise (SdkError OshiBotError
               (default (PyStr ("HTTP " +:+ pretty (status_code r))) (d !! "error")))
    else Return (PyDict d).
Proof.
  intros Ha Hj. unfold out, rq in *.
  rewrite (request_answered _ _ _ _ _ _ _ Ha).
  unfold parse_and_classify. exec_run. rewrite Hj. simpl.
  repeat (destruct (_ =? _); [reflexivity |]).
  destruct (_ >=? _); reflexivity.
Qed.

(** Below 400 the parsed body is returned as it is, dict or not. *)
Lemma success_returns_body r evs v :
  answers transport st rq r evs ->
  json r = Some v ->
  status_code r < 400 ->
  out = Return v.
Proof.
  intros Ha Hj Hs. unfold out, rq in *.
  rewrite (request_answered _ _ _ _ _ _ _ Ha).
  unfold parse_and_classify. exec_run. rewrite Hj. simpl.
  destruct (Z.eqb_spec (status_code r) 401); [lia |].
  destruct (Z.eqb_spec (status_code r) 403); [lia |].
  destruct (Z.eqb_spec (status_code r) 404); [lia |].
  rewrite Z.geb_leb. destruct (Z.leb_spec 400 (status_code r)); [lia |].
  reflexivity.
Qed.

(** A body that parses to something other than a dict, with a status from
    400 up: [data.get] does not exist and [AttributeError] escapes. *)
Lemma non_dict_error_body r evs v :
  answers transport st rq r evs ->
  json r = Some v ->
  (∀ d, v ≠ PyDict d) ->
  400 <= status_code r ->
  out = Raise (PyError AttributeError).
Proof.
  intros Ha Hj Hv Hs. unfold out, rq in *.
  rewrite (request_answered _ _ _ _ _ _ _ Ha).
  unfold parse_and_classify. exec_run. rewrite Hj. simpl.
  assert (Hge : (status_code r >=? 400) = true)
    by (rewrite Z.geb_leb; apply Z.leb_le; lia).
  rewrite Hge.
  destruct v; try (repeat (destruct (_ =? _)); reflexivity).
  exfalso. eapply Hv. reflexivity.
Qed.

(** C1 (as amended): the response in hand for parsing is never a 429 (a
    429 takes the retry path and, when it persists, raises the RateLimit
    error before any parsing).  When its body parses to a JSON object,
    status 401 raises the Auth error, 403 the GroupAssignment error, 404
    the NotFound error (base class, default text "Not found"), any other
    status from 400 up, 429 apart, the generic error whose message is
    the server's [error] entry when present and "HTTP <status>"
    otherwise; and below 400 the parsed body, object or not, is returned
    unchanged. *)
Theorem C1_classification_of_object_bodies r evs :
  answers transport st rq r evs ->
  (∀ d, json r = Some (PyDict d) ->
     (status_code r = 401 ->
        out = Raise (SdkError OshiAuthError
                       (default (PyStr "Invalid bot token") (d !! "error")))) ∧
     (status_code r = 403 ->
        out = Raise (SdkError OshiGroupError
                       (default (PyStr "Bot not assigned to group") (d !! "error")))) ∧
     (status_code r = 404 ->
        out = Raise (SdkError OshiBotError
                       (default (PyStr "Not found") (d !! "error")))) ∧
     (400 <= status_code r -> status_code r ≠ 401 ->
      status_code r ≠ 403 -> status_code r ≠ 404 ->
        (∀ msg, d !! "error" = Some msg ->
           out = Raise (SdkError OshiBotError msg)) ∧
        (d !! "error" = None ->
           out = Raise (SdkError OshiBotError
                          (PyStr ("HTTP " +:+ pretty (status_code r))))))) ∧
  (∀ v, json r = Some v -> status_code r < 400 -> out = Return v) ∧
  status_code r ≠ 429.
Proof.
  intros Ha. split; [| split].
  - intros d Hj. pose proof (classified_by_status r evs d Ha Hj) as Hc.
    repeat split.
    + intros Hs. rewrite Hc, Hs. reflexivity.
    + intros Hs. rewrite Hc, Hs. reflexivity.
    + intros Hs. rewrite Hc, Hs. reflexivity.
    + intros msg Hm. rewrite Hc, Hm.
      destruct (Z.eqb_spec (status_code r) 401); [lia |].
      destruct (Z.eqb_spec (status_code r) 403); [lia |].
      destruct (Z.eqb_spec (status_code r) 404); [lia |].
      rewrite Z.geb_leb. destruct (Z.leb_spec 400 (status_code r)); [| lia].
      reflexivity.
    + intros Hm. rewrite Hc, Hm.
      destruct (Z.eqb_spec (status_code r) 401); [lia |].
      destruct (Z.eqb_spec (status_code r) 403); [lia |].
      destruct (Z.eqb_spec (status_code r) 404); [lia |].
      rewrite Z.geb_leb. destruct (Z.leb_spec 400 (status_code r)); [| lia].
      reflexivity.
  - intros v Hj Hs. exact (success_returns_body r evs v Ha Hj Hs).
  - destruct Ha; assumption.
Qed.

(** C2 (as amended): with status 401 the classification is Auth whatever
    the entries of the body, whenever the body parses to a JSON object;
    and when the body does not parse at all, the invalid-response error
    is raised instead: parsing comes before the status is looked at. *)
Theorem C2_auth_after_parsing r evs :
  answers transport st rq r evs ->
  status_code r = 401 ->
  (∀ d, json r = Some (PyDict d) ->
     ∃ msg, out = Raise (SdkError OshiAuthError msg) ∧
            msg = default (PyStr "Invalid bot token") (d !! "error")) ∧
  (json r = None ->
     out = Raise (SdkError OshiBotError
                    (PyStr "Invalid response from server (HTTP 401)"))).
Proof.
  intros Ha Hs. split.
  - intros d Hj. eexists. split; [| reflexivity].
    rewrite (classified_by_status r evs d Ha Hj), Hs. reflexivity.
  - intros Hj. rewrite (unparsed_is_invalid_response r evs Ha Hj), Hs.
    reflexivity.
Qed.

End Classification.

(* ------------------------------------------------------------------ *)
(** ** Rate limiting and transport failures *)

Lemma prefix_refl (s : string) : String.prefix s s = true.
Proof.
  induction s as [| c s IH]; simpl; [reflexivity |].
  destruct (ascii_dec c c); [exact IH | congruence].
Qed.

Lemma contains_append (pre s : string) : contains s (pre +:+ s) = true.
Proof.
  induction pre as [| c pre IH].
  - change (EmptyString +:+ s) with s.
    destruct s; simpl; [reflexivity |].
    rewrite prefix_refl. destruct (ascii_dec _ _); [reflexivity | congruence].
  - change (String c pre +:+ s) with (String c (pre +:+ s)).
    simpl. rewrite IH. apply orb_true_r.
Qed.

Section RateLimit.

Variable transport : list event -> Request -> reply.
Variables (method endpoint : string) (kwargs : gmap string pyval).
Variable st : State.

Let rq := request_of (self st) method endpoint kwargs.
Let run := _request transport method endpoint kwargs st.

(** C3: a 429 answered by a second 429 with retry enabled costs exactly
    two attempts, the second with the same request after one 5 second
    sleep, and ends in the RateLimit error; a 429 with retry disabled
    costs exactly one attempt, no sleep, and ends in the RateLimit error. *)
Theorem C3_rate_limit_attempts r1 :
  transport (journal st) rq = Returned r1 ->
  status_code r1 = 429 ->
  (auto_retry (self st) = true ->
   ∀ r2,
     transport (journal st ++ EvRequest rq :: retry_pause) rq = Returned r2 ->
     status_code r2 = 429 ->
     ∃ evs,
       run = (Raise (SdkError OshiRateLimitError
                       (PyStr "Rate limit: max 60 messages/minute")),
              advance st evs) ∧
       evs = [EvRequest rq;
              EvWarning "Rate limited, waiting 5s before retry...";
              EvSleep 5;
              EvRequest rq] ∧
       attempts evs = 2%nat ∧ slept evs = 5) ∧
  (auto_retry (self st) = false ->
   ∃ evs,
     run = (Raise (SdkError OshiRateLimitError
                     (PyStr "Rate limit: max 60 messages/minute")),
            advance st evs) ∧
     evs = [EvRequest rq] ∧
     attempts evs = 1%nat ∧ slept evs = 0).
Proof.
  intros H1 Hs1. split.
  - intros Hretry r2 H2 Hs2. eexists. split; [| split; [reflexivity |]].
    + unfold run.
      rewrite (request_limited_twice _ _ _ _ _ r1 r2 H1 Hs1 Hretry H2 Hs2).
      reflexivity.
    + split; reflexivity.
  - intros Hretry. eexists. split; [| split; [reflexivity |]].
    + unfold run.
      rewrite (request_limited_no_retry _ _ _ _ _ r1 H1 Hs1 Hretry).
      reflexivity.
    + split; reflexivity.
Qed.

(** C4: a 429, retry enabled, and a 200 with a JSON body on the retry:
    the call returns the body of the second response. *)
Theorem C4_retry_then_success r1 r2 v :
  transport (journal st) rq = Returned r1 ->
  status_code r1 = 429 ->
  auto_retry (self st) = true ->
  transport (journal st ++ EvRequest rq :: retry_pause) rq = Returned r2 ->
  status_code r2 = 200 ->
  json r2 = Some v ->
  run = (Return v, advance st (EvRequest rq :: retry_pause ++ [EvRequest rq])).
Proof.
  intros H1 Hs1 Hretry H2 Hs2 Hj.
  assert (Ha : answers transport st rq r2
                 (EvRequest rq :: retry_pause ++ [EvRequest rq])).
  { eapply answers_retry; eauto. lia. }
  unfold run. rewrite (request_answered _ _ _ _ _ _ _ Ha).
  unfold parse_and_classify. exec_run. rewrite Hj, Hs2. reflexivity.
Qed.

(** C10: a 429, retry enabled, and the retried request raises a
    connection failure or a timeout: the exception is dropped, and the
    first response, still in hand, gives the RateLimit error. *)
Theorem C10_retry_exception_suppressed r1 c :
  transport (journal st) rq = Returned r1 ->
  status_code r1 = 429 ->
  auto_retry (self st) = true ->
  transport (journal st ++ EvRequest rq :: retry_pause) rq = Failed c ->
  is_ConnectionError (PyError c) = true ∨ is_Timeout (PyError c) = true ->
  run = (Raise (SdkError OshiRateLimitError
                  (PyStr "Rate limit: max 60 messages/minute")),
         advance st (EvRequest rq :: retry_pause ++ [EvRequest rq])).
Proof.
  intros H1 Hs1 Hretry H2 Hc. unfold run.
  rewrite (request_retry_failed _ _ _ _ _ r1 c H1 Hs1 Hretry H2).
  destruct c; simpl in Hc; try reflexivity; destruct Hc; discriminate.
Qed.

(** C5 (as amended): when the first attempt raises, exactly one request
    has been made and nothing was slept; a connection failure becomes the
    base error "Connection failed: <url>", which contains the target
    address, and a timeout that is not a connection failure becomes the
    base error "Request timed out after <timeout>s", which names the
    configured timeout. *)
Theorem C5_transport_failure_not_retried c :
  transport (journal st) rq = Failed c ->
  (is_ConnectionError (PyError c) = true ->
     ∃ msg, run.1 = Raise (SdkError OshiBotError (PyStr msg)) ∧
            msg = "Connection failed: " +:+ base_url (self st) +:+ endpoint ∧
            contains (req_url rq) msg = true) ∧
  (is_ConnectionError (PyError c) = false -> is_Timeout (PyError c) = true ->
     run.1 = Raise (SdkError OshiBotError
                      (PyStr ("Request timed out after "
                                +:+ pretty (timeout (self st)) +:+ "s")))) ∧
  ∃ evs, run.2 = advance st evs ∧ evs = [EvRequest rq] ∧
         attempts evs = 1%nat ∧ slept evs = 0.
Proof.
  intros H. unfold run. rewrite (request_first_failed _ _ _ _ _ c H).
  split; [| split].
  - intros Hc. rewrite Hc. eexists. split; [reflexivity |].
    split; [reflexivity |]. apply contains_append.
  - intros Hc Ht. rewrite Hc, Ht. reflexivity.
  - eexists. repeat split; reflexivity.
Qed.

End RateLimit.

(* ------------------------------------------------------------------ *)
(** ** The client instance is never written *)

Lemma keeps_ret {A : Type} (a : A) : keeps_self (mret a).
Proof. intros st. reflexivity. Qed.

Lemma keeps_raise {A : Type} (e : exn) : keeps_self (@raise A e).
Proof. intros st. reflexivity. Qed.

Lemma keeps_read {A : Type} (field : OshiBot -> A) : keeps_self (read field).
Proof. intros st. reflexivity. Qed.

Lemma keeps_emit (ev : event) : keeps_self (emit ev).
Proof. intros st. reflexivity. Qed.

Lemma keeps_bind {A B : Type} (m : Exec A) (k : A -> Exec B) :
  keeps_self m -> (∀ a, keeps_self (k a)) -> keeps_self (m ≫= k).
Proof.
  intros Hm Hk st. unfold mbind, Exec_bind.
  specialize (Hm st). destruct (m st) as [[a | e] st']; simpl in *.
  - rewrite Hk. exact Hm.
  - exact Hm.
Qed.

Lemma keeps_fmap {A B : Type} (f : A -> B) (m : Exec A) :
  keeps_self m -> keeps_self (f <$> m).
Proof.
  intros Hm st. unfold fmap, Exec_fmap.
  specialize (Hm st). destruct (m st) as [[a | e] st']; exact Hm.
Qed.

Lemma keeps_try {A : Type} (body : Exec A) (handler : exn -> Exec A) :
  keeps_self body -> (∀ e, keeps_self (handler e)) ->
  keeps_self (try_except body handler).
Proof.
  intros Hb Hh st. unfold try_except.
  specialize (Hb st). destruct (body st) as [[a | e] st']; simpl in *.
  - exact Hb.
  - rewrite Hh. exact Hb.
Qed.

Lemma keeps_session_request transport method url kwargs :
  keeps_self (session_request transport method url kwargs).
Proof.
  intros st. unfold session_request. destruct (transport _ _); reflexivity.
Qed.

Lemma keeps_py_get data key dflt : keeps_self (py_get data key dflt).
Proof. intros st. destruct data; reflexivity. Qed.

Lemma keeps_py_getitem obj key : keeps_self (py_getitem obj key).
Proof.
  intros st. destruct obj; try reflexivity.
  simpl. destruct (d !! key); reflexivity.
Qed.

Lemma keeps_py_iter v : keeps_self (py_iter v).
Proof. intros st. destruct v; reflexivity. Qed.

Ltac keeps_step :=
  lazymatch goal with
  | |- keeps_self (mbind _ _) => apply keeps_bind; [| intros ?]
  | |- keeps_self (mret _) => apply keeps_ret
  | |- keeps_self (raise _) => apply keeps_raise
  | |- keeps_self (read _) => apply keeps_read
  | |- keeps_self (fmap _ _) => apply keeps_fmap
  | |- keeps_self (try_except _ _) => apply keeps_try; [| intros ?]
  | |- keeps_self (logger_warning _) => apply keeps_emit
  | |- keeps_self (time_sleep _) => apply keeps_emit
  | |- keeps_self (session_request _ _ _ _) => apply keeps_session_request
  | |- keeps_self (py_get _ _ _) => apply keeps_py_get
  | |- keeps_self (py_getitem _ _) => apply keeps_py_getitem
  | |- keeps_self (py_iter _) => apply keeps_py_iter
  | |- keeps_self (if ?b then _ else _) => destruct b
  | |- keeps_self (match ?x with _ => _ end) => destruct x
  end.

Lemma keeps_request transport method endpoint kwargs :
  keeps_self (_request transport method endpoint kwargs).
Proof. unfold _request. repeat keeps_step. Qed.

Lemma keeps_send transport group_id content :
  keeps_self (send transport group_id content).
Proof. unfold send. repeat keeps_step. apply keeps_request. Qed.

Lemma keeps_info transport : keeps_self (info transport).
Proof. unfold info. repeat keeps_step. apply keeps_request. Qed.

Lemma keeps_send_each transport repr_of content groups :
  ∀ results, keeps_self (send_each transport repr_of content groups results).
Proof.
  induction groups as [| group rest IH]; intros results; simpl.
  - apply keeps_ret.
  - repeat keeps_step; try apply keeps_send. apply IH.
Qed.

Lemma keeps_call transport repr_of op :
  keeps_self (call transport repr_of op).
Proof.
  destruct op; simpl;
    unfold register, update_groups, unregister, list_bots,
      send_to_all_groups, get_groups, get_stats;
    repeat keeps_step;
    auto using keeps_send, keeps_info, keeps_request, keeps_send_each.
Qed.

(** Parsing and classifying writes nothing at all. *)
Lemma parse_and_classify_state r st : (parse_and_classify r st).2 = st.
Proof.
  unfold parse_and_classify. exec_unfold.
  destruct (json r) as [v |]; simpl; [| reflexivity].
  repeat (destruct (_ =? _); [destruct v; reflexivity |]).
  destruct (_ >=? _); destruct v; reflexivity.
Qed.

(** After a first 429 with retry enabled, the journal gains the first
    request, the pause and the same request again, whatever the retried
    attempt does. *)
Lemma retry_journal transport method endpoint kwargs st r1 :
  let rq := request_of (self st) method endpoint kwargs in
  transport (journal st) rq = Returned r1 ->
  status_code r1 = 429 ->
  auto_retry (self st) = true ->
  (_request transport method endpoint kwargs st).2 =
    advance st (EvRequest rq :: retry_pause ++ [EvRequest rq]).
Proof.
  intros rq H1 Hs1 Hretry.
  destruct (transport (journal st ++ EvRequest rq :: retry_pause) rq)
    as [r2 | c] eqn:H2.
  - destruct (Z.eq_dec (status_code r2) 429) as [Hs2 | Hs2].
    + rewrite (request_limited_twice _ _ _ _ _ r1 r2 H1 Hs1 Hretry H2 Hs2).
      reflexivity.
    + rewrite (request_answered _ _ _ _ _ r2 _
                 (answers_retry _ _ _ r1 r2 H1 Hs1 Hretry H2 Hs2)).
      apply parse_and_classify_state.
  - rewrite (request_retry_failed _ _ _ _ _ r1 c H1 Hs1 Hretry H2).
    reflexivity.
Qed.

(** C9: no method of a client instance writes an attribute: after any
    call the instance, with its token, base address, timeout and retry
    flag, is the one before the call; and the rate-limit retry issues
    the very request of the first attempt: same method, same URL, same
    keyword arguments. *)
Theorem C9_configuration_immutable transport repr_of :
  (∀ op st,
     let bot := self (call transport repr_of op st).2 in
     bot = self st ∧
     token bot = token (self st) ∧ base_url bot = base_url (self st) ∧
     timeout bot = timeout (self st) ∧ auto_retry bot = auto_retry (self st)) ∧
  (∀ method endpoint kwargs st r1,
     let rq := request_of (self st) method endpoint kwargs in
     transport (journal st) rq = Returned r1 ->
     status_code r1 = 429 ->
     auto_retry (self st) = true ->
     ∃ first second,
       journal (_request transport method endpoint kwargs st).2 =
         journal st ++ [EvRequest first;
                        EvWarning "Rate limited, waiting 5s before retry...";
                        EvSleep 5;
                        EvRequest second] ∧
       second = first ∧
       req_method first = method ∧
       req_url first = base_url (self st) +:+ endpoint ∧
       req_kwargs first = setdefault "timeout" (PyInt (timeout (self st))) kwargs).
Proof.
  split.
  - intros op st bot. unfold bot. rewrite (keeps_call transport repr_of op st).
    repeat split.
  - intros method endpoint kwargs st r1 rq H1 Hs1 Hretry.
    exists rq, rq.
    rewrite (retry_journal _ _ _ _ _ r1 H1 Hs1 Hretry).
    repeat split.
Qed.

(* ------------------------------------------------------------------ *)
(** ** The display form *)

Lemma py_prefix_length (n : nat) (s : string) :
  String.length (py_prefix n s) = Nat.min n (String.length s).
Proof.
  unfold py_prefix. revert s.
  induction n as [| n IH]; intros [| c s]; simpl; try reflexivity.
  rewrite IH. reflexivity.
Qed.

Lemma py_prefix_idem (n : nat) (s : string) :
  py_prefix n (py_prefix n s) = py_prefix n s.
Proof.
  unfold py_prefix. revert s.
  induction n as [| n IH]; intros [| c s]; simpl; try reflexivity.
  rewrite IH. reflexivity.
Qed.

Lemma py_prefix_short (n : nat) (s : string) :
  (String.length s <= n)%nat -> py_prefix n s = s.
Proof.
  unfold py_prefix. revert s.
  induction n as [| n IH]; intros [| c s] H; simpl in *; try reflexivity.
  - lia.
  - rewrite IH by lia. reflexivity.
Qed.

(** C8 (as amended): the display form depends on the token through its
    first 8 characters only: clients whose tokens agree on them, with the
    same other settings, display alike.  For a token of more than 8
    characters what is shown of it is a proper prefix, exactly 8 characters
    long, and some other token gives the same display form, so that the
    display form does not determine the token.  A token of 8 characters
    or fewer is shown whole. *)
Theorem C8_repr_shows_prefix_only :
  (∀ t1 t2 base tmo retry,
     py_prefix 8 t1 = py_prefix 8 t2 ->
     __repr__ (__init__ t1 base tmo retry) = __repr__ (__init__ t2 base tmo retry)) ∧
  (∀ t base tmo retry,
     (8 < String.length t)%nat ->
     String.length (py_prefix 8 t) = 8%nat ∧
     py_prefix 8 t ≠ t ∧
     ∃ t', t' ≠ t ∧
           __repr__ (__init__ t' base tmo retry) = __repr__ (__init__ t base tmo retry)) ∧
  (∀ t base tmo retry,
     (String.length t <= 8)%nat ->
     __repr__ (__init__ t base tmo retry) =
       "OshiBot(token='" +:+ t +:+ "...', base_url='" +:+ rstrip_slash base +:+ "')").
Proof.
  split; [| split].
  - intros t1 t2 base tmo retry H. unfold __repr__, __init__. simpl.
    rewrite H. reflexivity.
  - intros t base tmo retry Hlen.
    assert (Hp : String.length (py_prefix 8 t) = 8%nat)
      by (rewrite py_prefix_length; lia).
    assert (Hne : py_prefix 8 t ≠ t)
      by (intros Heq; rewrite Heq in Hp; lia).
    split; [exact Hp |]. split; [exact Hne |].
    exists (py_prefix 8 t). split; [exact Hne |].
    unfold __repr__, __init__. simpl. rewrite py_prefix_idem. reflexivity.
  - intros t base tmo retry Hlen. unfold __repr__, __init__. simpl.
    rewrite (py_prefix_short 8 t Hlen). reflexivity.
Qed.

(* ------------------------------------------------------------------ *)
(** ** What the caller can tell from the outcome *)



Section Outcomes.

Variable transport : list event -> Request -> reply.
Variables (method endpoint : string) (kwargs : gmap string pyval).
Variable st : State.

Let rq := request_of (self st) method endpoint kwargs.
Let out := (_request transport method endpoint kwargs st).1.



End Outcomes.

(* ------------------------------------------------------------------ *)
(** ** Sending to all groups *)

Section Bulk.

Variable transport : list event -> Request -> reply.
Variable repr_of : pyval -> string.
Variable content : string.

Lemma send_in_turn_length ids :
  ∀ st outs st',
    send_in_turn transport content ids st = (outs, st') ->
    length outs = length ids.
Proof.
  induction ids as [| gid ids IH]; intros st outs st' H; simpl in H.
  - injection H as <- _. reflexivity.
  - destruct (send transport gid content st) as [o st1].
    destruct (send_in_turn transport content ids st1) as [os st2] eqn:Hrest.
    injection H as <- _. simpl. f_equal. eapply IH. exact Hrest.
Qed.

(** The loop visits every group: a send that raises an SDK error leaves a
    failure record and the loop goes on with the next group. *)
Lemma send_each_collects groups ids :
  Forall2 group_with_id groups ids ->
  ∀ results st outs st',
    send_in_turn transport content ids st = (outs, st') ->
    Forall classified outs ->
    send_each transport repr_of content groups results st =
      (Return (results ++ zip_with (entry repr_of) ids outs), st').
Proof.
  induction 1 as [| group gid groups ids (d & -> & Hid) _ IH];
    intros results st outs st' Hturn Hcl; simpl in Hturn.
  - injection Hturn as <- <-. simpl. rewrite app_nil_r. reflexivity.
  - destruct (send transport gid content st) as [o st1] eqn:Hsend.
    destruct (send_in_turn transport content ids st1) as [os st2] eqn:Hrest.
    injection Hturn as <- <-.
    apply Forall_cons in Hcl as [Ho Hos].
    specialize (IH (results ++ [entry repr_of gid o]) st1 os st2 Hrest Hos).
    rewrite <- app_assoc in IH. simpl in IH.
    simpl. rewrite <- IH. clear IH.
    unfold mbind, Exec_bind, try_except, py_getitem. rewrite Hid.
    unfold mret at 1, Exec_ret at 1. rewrite Hsend.
    destruct o as [body | e]; simpl.
    + reflexivity.
    + specialize (Ho e eq_refl). destruct e as [c arg | c]; [| discriminate].
      unfold mret at 1, Exec_ret at 1. reflexivity.
Qed.

(** C6: when [info] lists N groups, the send to group K raises an SDK
    error and the sends to the other groups return, the bulk send makes
    all N sends and returns N entries: entry K is a dict whose
    [groupId] is the identifier of group K, whose [error] is the text
    of the exception and whose [success] is false, and every other
    entry is the body the send to its group returned. *)
Theorem C6_send_to_all_groups_partial_failure
    st bi b groups ids st1 outs st2 K gidK cK argK :
  info transport st = (Return (PyDict bi), st1) ->
  bi !! "bot" = Some (PyDict b) ->
  b !! "groups" = Some (PyList groups) ->
  Forall2 group_with_id groups ids ->
  send_in_turn transport content ids st1 = (outs, st2) ->
  ids !! K = Some gidK ->
  outs !! K = Some (Raise (SdkError cK argK)) ->
  (∀ j, j ≠ K -> (j < length groups)%nat ->
        ∃ body, outs !! j = Some (Return body)) ->
  ∃ results,
    send_to_all_groups transport repr_of content st = (Return results, st2) ∧
    length results = length groups ∧
    (∃ record,
       results !! K = Some (PyDict record) ∧
       record !! "groupId" = Some gidK ∧
       record !! "error" = Some (PyStr (py_str repr_of argK)) ∧
       record !! "success" = Some (PyBool false)) ∧
    (∀ j body, j ≠ K -> outs !! j = Some (Return body) ->
               results !! j = Some body).
Proof.
  intros Hinfo Hbot Hgroups Hids Hturn HidK HoutK Hothers.
  pose proof (send_in_turn_length _ _ _ _ Hturn) as Hlen.
  pose proof (Forall2_length _ _ _ Hids) as Hlen'.
  assert (Hcl : Forall classified outs).
  { apply Forall_lookup. intros j o Ho e ->.
    destruct (decide (j = K)) as [-> | Hne].
    - rewrite HoutK in Ho. injection Ho as <-. reflexivity.
    - destruct (Hothers j Hne) as [body Hbody].
      + apply lookup_lt_Some in Ho. lia.
      + rewrite Hbody in Ho. discriminate. }
  exists (zip_with (entry repr_of) ids outs).
  split; [| split; [| split]].
  - unfold send_to_all_groups, mbind, Exec_bind. rewrite Hinfo.
    simpl. rewrite Hbot. simpl. rewrite Hgroups. simpl.
    exact (send_each_collects groups ids Hids [] st1 outs st2 Hturn Hcl).
  - rewrite length_zip_with. lia.
  - eexists. rewrite lookup_zip_with, HidK. simpl. rewrite HoutK. simpl.
    unfold failure_record. split; [reflexivity |].
    repeat split.
  - intros j body Hne Hj.
    rewrite lookup_zip_with.
    destruct (ids !! j) as [gid |] eqn:Hgid.
    + simpl. rewrite Hj. reflexivity.
    + apply lookup_ge_None in Hgid. apply lookup_lt_Some in Hj. lia.
Qed.

End Bulk.

(* ------------------------------------------------------------------ *)
(** ** The theorems at work on the scenarios *)

(** A 500 whose body carries an [error] entry: the generic error with the
    server's message. *)
Lemma C1_witness :
  let tr := always (Returned (mkResponse 500 (Some (error_body "boom")))) in
  answers tr (fresh sample_bot) (request_of sample_bot "GET" "/api/bot/list" ∅)
    (mkResponse 500 (Some (error_body "boom")))
    [EvRequest (request_of sample_bot "GET" "/api/bot/list" ∅)] ∧
  (_request tr "GET" "/api/bot/list" ∅ (fresh sample_bot)).1 =
    Raise (SdkError OshiBotError (PyStr "boom")).
Proof.
  intros tr.
  assert (Ha : answers tr (fresh sample_bot)
                 (request_of sample_bot "GET" "/api/bot/list" ∅)
                 (mkResponse 500 (Some (error_body "boom")))
                 [EvRequest (request_of sample_bot "GET" "/api/bot/list" ∅)]).
  { apply answers_first; [reflexivity | simpl; lia]. }
  split; [exact Ha |].
  destruct (C1_classification_of_object_bodies tr "GET" "/api/bot/list" ∅
              (fresh sample_bot) _ _ Ha) as [Hobj _].
  destruct (Hobj {["error" := PyStr "boom"]} eq_refl) as (_ & _ & _ & Hgen).
  destruct Hgen as [Hmsg _]; simpl; try lia.
  apply Hmsg. reflexivity.
Defined.

(** A 401 whose body is a JSON array: [AttributeError], not the Auth
    error. *)
Lemma C1_counterexample_array_body :
  json (mkResponse 401 (Some (PyList []))) = Some (PyList []) ∧
  (_request (always (Returned (mkResponse 401 (Some (PyList [])))))
     "GET" "/api/bot/list" ∅ (fresh sample_bot)).1 =
    Raise (PyError AttributeError).
Proof. split; reflexivity. Qed.

(** A 401 whose body speaks of groups is still the Auth error. *)
Lemma C2_witness :
  let r := mkResponse 401 (Some (error_body "Bot not assigned to group")) in
  status_code r = 401 ∧
  (_request (always (Returned r)) "POST" "/api/bot/send" ∅ (fresh sample_bot)).1 =
    Raise (SdkError OshiAuthError (PyStr "Bot not assigned to group")).
Proof.
  intros r. split; [reflexivity |].
  assert (Ha : answers (always (Returned r)) (fresh sample_bot)
                 (request_of sample_bot "POST" "/api/bot/send" ∅) r
                 [EvRequest (request_of sample_bot "POST" "/api/bot/send" ∅)]).
  { apply answers_first; [reflexivity | simpl; lia]. }
  destruct (C2_auth_after_parsing (always (Returned r)) "POST" "/api/bot/send" ∅
              (fresh sample_bot) r _ Ha eq_refl) as [Hobj _].
  destruct (Hobj {["error" := PyStr "Bot not assigned to group"]} eq_refl)
    as (msg & Hout & ->).
  exact Hout.
Defined.

(** A 401 whose body is a JSON string: [AttributeError], not the Auth
    error. *)
Lemma C2_counterexample_string_body :
  json (mkResponse 401 (Some (PyStr "Unauthorized"))) = Some (PyStr "Unauthorized") ∧
  status_code (mkResponse 401 (Some (PyStr "Unauthorized"))) = 401 ∧
  (_request (always (Returned (mkResponse 401 (Some (PyStr "Unauthorized")))))
     "POST" "/api/bot/send" ∅ (fresh sample_bot)).1 =
    Raise (PyError AttributeError).
Proof. repeat split; reflexivity. Qed.

(** Two 429 in a row with retry enabled, and one 429 with retry disabled. *)
Lemma C3_witness :
  let tr := always (Returned too_many_requests) in
  attempts (journal (_request tr "GET" "/api/bot/list" ∅ (fresh sample_bot)).2)
    = 2%nat ∧
  (_request tr "GET" "/api/bot/list" ∅ (fresh sample_bot)).1
    = Raise rate_limit_error ∧
  attempts (journal (_request tr "GET" "/api/bot/list" ∅ (fresh patient_bot)).2)
    = 1%nat ∧
  (_request tr "GET" "/api/bot/list" ∅ (fresh patient_bot)).1
    = Raise rate_limit_error.
Proof.
  intros tr.
  destruct (C3_rate_limit_attempts tr "GET" "/api/bot/list" ∅ (fresh sample_bot)
              too_many_requests eq_refl eq_refl) as [Hon _].
  destruct (Hon eq_refl too_many_requests eq_refl eq_refl)
    as (evs & Hrun & -> & _).
  destruct (C3_rate_limit_attempts tr "GET" "/api/bot/list" ∅ (fresh patient_bot)
              too_many_requests eq_refl eq_refl) as [_ Hoff].
  destruct (Hoff eq_refl) as (evs' & Hrun' & -> & _).
  rewrite Hrun, Hrun'. repeat split.
Defined.

(** A 429 and then a 200. *)
Lemma C4_witness :
  (_request (first_then (Returned too_many_requests)
                        (Returned (mkResponse 200 (Some sent_body))))
     "POST" "/api/bot/send" ∅ (fresh sample_bot)).1 = Return sent_body.
Proof.
  rewrite (C4_retry_then_success
             (first_then (Returned too_many_requests)
                         (Returned (mkResponse 200 (Some sent_body))))
             "POST" "/api/bot/send" ∅ (fresh sample_bot)
             too_many_requests (mkResponse 200 (Some sent_body)) sent_body
             eq_refl eq_refl eq_refl eq_refl eq_refl eq_refl).
  reflexivity.
Defined.

(** A refused connection. *)
Lemma C5_witness :
  (_request (always (Failed ConnectionError)) "GET" "/api/bot/list" ∅
     (fresh sample_bot)).1 =
    Raise (SdkError OshiBotError
             (PyStr "Connection failed: https://oshi-messenger.com/api/bot/list")).
Proof.
  destruct (C5_transport_failure_not_retried (always (Failed ConnectionError))
              "GET" "/api/bot/list" ∅ (fresh sample_bot) ConnectionError eq_refl)
    as [Hconn _].
  destruct (Hconn eq_refl) as (msg & Hout & -> & _).
  exact Hout.
Defined.

(** A read timeout: the error names the timeout and not the address. *)
Lemma C5_counterexample_timeout_omits_address :
  (_request (always (Failed ReadTimeout)) "GET" "/api/bot/list" ∅
     (fresh sample_bot)).1 =
    Raise (SdkError OshiBotError (PyStr "Request timed out after 10s")) ∧
  req_url (request_of sample_bot "GET" "/api/bot/list" ∅) =
    "https://oshi-messenger.com/api/bot/list" ∧
  contains "https://oshi-messenger.com/api/bot/list"
    "Request timed out after 10s" = false.
Proof. repeat split; reflexivity. Qed.

(** Three groups, the bot refused in the second. *)
Lemma C6_witness :
  ∃ results record,
    (send_to_all_groups refusing_g2 no_repr "hello" (fresh sample_bot)).1 =
      Return results ∧
    length results = 3%nat ∧
    results !! 0%nat = Some sent_body ∧
    results !! 1%nat = Some (PyDict record) ∧
    record !! "groupId" = Some (PyStr "g2") ∧
    record !! "error" = Some (PyStr "Bot not assigned to group") ∧
    results !! 2%nat = Some sent_body.
Proof.
  pose (ids := [PyStr "g1"; PyStr "g2"; PyStr "g3"]).
  pose (st1 := (info refusing_g2 (fresh sample_bot)).2).
  destruct (C6_send_to_all_groups_partial_failure refusing_g2 no_repr "hello"
              (fresh sample_bot) info_body {["groups" := PyList three_groups]}
              three_groups ids st1
              (send_in_turn refusing_g2 "hello" ids st1).1
              (send_in_turn refusing_g2 "hello" ids st1).2
              1%nat (PyStr "g2") OshiGroupError (PyStr "Bot not assigned to group"))
    as (results & Hrun & Hlen & (record & HK & Hgid & Herr & Hsucc) & Hothers).
  - reflexivity.
  - reflexivity.
  - reflexivity.
  - repeat constructor; eexists; split; reflexivity.
  - reflexivity.
  - reflexivity.
  - reflexivity.
  - intros [| [| [| j]]] Hne Hlt; simpl in Hlt; try lia; eexists; reflexivity.
  - exists results, record. rewrite Hrun.
    split; [reflexivity |].
    split; [exact Hlen |].
    split; [apply Hothers; [lia | reflexivity] |].
    split; [exact HK |].
    split; [exact Hgid |].
    split; [exact Herr |].
    apply Hothers; [lia | reflexivity].
Defined.



(** Two tokens with the same first 8 characters. *)
Lemma C8_witness :
  py_prefix 8 sample_token = py_prefix 8 "a1b2c3d4ffffffffffffffffffffffff" ∧
  __repr__ (__init__ sample_token default_base_url 10 true) =
    __repr__ (__init__ "a1b2c3d4ffffffffffffffffffffffff" default_base_url 10 true) ∧
  __repr__ (__init__ sample_token default_base_url 10 true) =
    "OshiBot(token='a1b2c3d4...', base_url='https://oshi-messenger.com')".
Proof.
  split; [reflexivity |]. split; [| reflexivity].
  destruct C8_repr_shows_prefix_only as (Hsame & _ & _).
  apply Hsame. reflexivity.
Defined.

(** A token of five characters is displayed whole. *)
Lemma C8_counterexample_short_token :
  __repr__ dummy_bot =
    "OshiBot(token='dummy...', base_url='https://oshi-messenger.com')" ∧
  token dummy_bot = "dummy" ∧
  reveals_token dummy_bot = true.
Proof. repeat split; reflexivity. Qed.

(** A bulk send leaves the instance alone, and a retried send repeats
    its request. *)
Lemma C9_witness :
  self (call refusing_g2 no_repr (OpSendToAllGroups "hello") (fresh sample_bot)).2
    = sample_bot ∧
  ∃ rq,
    journal (_request (always (Returned too_many_requests)) "POST" "/api/bot/send"
               {["json" := sent_body]} (fresh sample_bot)).2 =
      [EvRequest rq; EvWarning "Rate limited, waiting 5s before retry...";
       EvSleep 5; EvRequest rq].
Proof.
  destruct (C9_configuration_immutable (always (Returned too_many_requests)) no_repr)
    as [_ Hretry].
  destruct (C9_configuration_immutable refusing_g2 no_repr) as [Hself _].
  split.
  - exact (proj1 (Hself (OpSendToAllGroups "hello") (fresh sample_bot))).
  - destruct (Hretry "POST" "/api/bot/send" {["json" := sent_body]}
                (fresh sample_bot) too_many_requests eq_refl eq_refl eq_refl)
      as (first & second & Hj & -> & _).
    exists first. exact Hj.
Defined.

(** A 429 and then a refused connection. *)
Lemma C10_witness :
  (_request (first_then (Returned too_many_requests) (Failed ConnectionError))
     "POST" "/api/bot/send" ∅ (fresh sample_bot)).1 = Raise rate_limit_error.
Proof.
  rewrite (C10_retry_exception_suppressed
             (first_then (Returned too_many_requests) (Failed ConnectionError))
             "POST" "/api/bot/send" ∅ (fresh sample_bot)
             too_many_requests ConnectionError
             eq_refl eq_refl eq_refl eq_refl (or_introl eq_refl)).
  reflexivity.
Defined.

(* ------------------------------------------------------------------ *)
(** ** The value operations of the scripts

    The scripts use the operations of the methods outside any method;
    they give what the monadic ones give and leave the state alone. *)

Lemma py_get_dict_get data key dflt st :
  py_get data key dflt st = (dict_get data key dflt, st).
Proof. destruct data; reflexivity. Qed.

Lemma py_getitem_getitem obj key st :
  py_getitem obj key st = (getitem obj key, st).
Proof.
  destruct obj; try reflexivity. simpl. destruct (d !! key); reflexivity.
Qed.

Lemma py_iter_items_of v st : py_iter v st = (items_of v, st).
Proof. destruct v; reflexivity. Qed.

(* ------------------------------------------------------------------ *)
(** ** The constructor and the base address *)

Lemma rstrip_slash_slashes (s : string) :
  ∃ n, s = rstrip_slash s +:+ slashes n.
Proof.
  induction s as [| c s [n IH]].
  - exists 0%nat. reflexivity.
  - simpl. destruct (rstrip_slash s) as [| c' r] eqn:Hr.
    + destruct (Ascii.eqb_spec c "/"%char) as [-> | Hc].
      * exists (S n). simpl. rewrite IH at 1. reflexivity.
      * exists n. simpl. rewrite IH at 1. reflexivity.
    + exists n. rewrite IH at 1. reflexivity.
Qed.

Lemma rstrip_slash_last (s : string) :
  last_char (rstrip_slash s) ≠ Some "/"%char.
Proof.
  induction s as [| c s IH]; simpl; [discriminate |].
  destruct (rstrip_slash s) as [| c' r] eqn:Hr.
  - destruct (Ascii.eqb_spec c "/"%char) as [-> | Hc]; simpl; congruence.
  - exact IH.
Qed.

Lemma rstrip_slash_app_slashes (s : string) (n : nat) :
  rstrip_slash (s +:+ slashes n) = rstrip_slash s.
Proof.
  induction s as [| c s IH].
  - change (EmptyString +:+ slashes n) with (slashes n).
    induction n as [| n IHn]; simpl; [reflexivity |].
    rewrite IHn. reflexivity.
  - change (String c s +:+ slashes n) with (String c (s +:+ slashes n)).
    simpl. rewrite IH. reflexivity.
Qed.

(** X1: the base address a client keeps is the one it was given with its
    trailing slashes cut off: what was cut is a run of slashes, and what
    is kept does not end in a slash. *)
Theorem X1_base_url_without_trailing_slashes token base tmo retry :
  (∃ n, base = base_url (__init__ token base tmo retry) +:+ slashes n) ∧
  last_char (base_url (__init__ token base tmo retry)) ≠ Some "/"%char.
Proof.
  split.
  - apply rstrip_slash_slashes.
  - apply rstrip_slash_last.
Qed.

(** X2: trailing slashes on the base address make no difference: the
    client built from an address followed by any number of slashes is the
    client built from the address, and a kept address given again is
    kept as it is. *)
Theorem X2_trailing_slashes_ignored token base tmo retry :
  (∀ n, __init__ token (base +:+ slashes n) tmo retry =
        __init__ token base tmo retry) ∧
  __init__ token (base_url (__init__ token base tmo retry)) tmo retry =
    __init__ token base tmo retry.
Proof.
  split.
  - intros n. unfold __init__. rewrite rstrip_slash_app_slashes. reflexivity.
  - unfold __init__. simpl.
    destruct (rstrip_slash_slashes base) as [n Hn].
    rewrite <- (rstrip_slash_app_slashes (rstrip_slash base) n), <- Hn.
    reflexivity.
Qed.

(* ------------------------------------------------------------------ *)
(** ** More on the executor *)

Section ExecutorExtras.

Variable transport : list event -> Request -> reply.
Variables (method endpoint : string) (kwargs : gmap string pyval).
Variable st : State.

Let rq := request_of (self st) method endpoint kwargs.
Let run := _request transport method endpoint kwargs st.

(** What a run of [_request] adds to the journal. *)
Lemma request_journal :
  run.2 = advance st
            (match transport (journal st) rq with
             | Returned r1 =>
                 if (status_code r1 =? 429) && auto_retry (self st)
                 then EvRequest rq :: retry_pause ++ [EvRequest rq]
                 else [EvRequest rq]
             | Failed _ => [EvRequest rq]
             end).
Proof.
  unfold run.
  destruct (transport (journal st) rq) as [r1 | c] eqn:H1.
  - destruct (Z.eqb_spec (status_code r1) 429) as [Hs1 | Hs1]; simpl.
    + destruct (auto_retry (self st)) eqn:Hretry.
      * exact (retry_journal _ _ _ _ _ r1 H1 Hs1 Hretry).
      * rewrite (request_limited_no_retry _ _ _ _ _ r1 H1 Hs1 Hretry).
        reflexivity.
    + rewrite (request_answered _ _ _ _ _ _ _ (answers_first _ _ _ r1 H1 Hs1)).
      apply parse_and_classify_state.
  - rewrite (request_first_failed _ _ _ _ _ c H1). reflexivity.
Qed.

Lemma request_journal_head :
  ∃ rest, journal run.2 = journal st ++ EvRequest rq :: rest.
Proof.
  rewrite request_journal. unfold advance. simpl.
  destruct (transport (journal st) rq) as [r1 | c]; [| eauto].
  destruct (_ && _); eauto.
Qed.

(** X3: a call of the executor makes one HTTP request or two, never
    more, and the two are the same request with one 5 second sleep
    between them; it makes two exactly when the first response is a 429
    and retry is enabled. *)
Theorem X3_one_or_two_identical_requests :
  ∃ evs,
    run.2 = advance st evs ∧
    (evs = [EvRequest rq] ∨
     evs = [EvRequest rq; EvWarning "Rate limited, waiting 5s before retry...";
            EvSleep 5; EvRequest rq]) ∧
    (attempts evs = 2%nat ↔
     ∃ r1, transport (journal st) rq = Returned r1 ∧ status_code r1 = 429 ∧
           auto_retry (self st) = true) ∧
    slept evs = (if decide (attempts evs = 2%nat) then 5 else 0).
Proof.
  eexists. split; [apply request_journal |].
  destruct (transport (journal st) rq) as [r1 | c] eqn:H1.
  - destruct (Z.eqb_spec (status_code r1) 429) as [Hs1 | Hs1]; simpl.
    + destruct (auto_retry (self st)) eqn:Hretry; simpl.
      * split; [right; reflexivity |]. split; [| reflexivity].
        split; [intros _; eauto | reflexivity].
      * split; [left; reflexivity |]. split; [| reflexivity].
        split; [discriminate |]. intros (r & [= <-] & _ & ?). discriminate.
    + split; [left; reflexivity |]. split; [| reflexivity].
      split; [discriminate |]. intros (r & [= <-] & ? & _). contradiction.
  - split; [left; reflexivity |]. split; [| reflexivity].
    split; [discriminate |]. intros (r & ? & _). discriminate.
Qed.

(** X4: the request that goes out carries the caller's keyword
    arguments; a [timeout] the caller gave is kept, and when the caller
    gave none the timeout of the instance is added; the URL is the base
    address followed by the endpoint. *)
Theorem X4_timeout_defaulted_not_overridden :
  ∃ first rest,
    journal run.2 = journal st ++ EvRequest first :: rest ∧
    req_method first = method ∧
    req_url first = base_url (self st) +:+ endpoint ∧
    req_kwargs first !! "timeout" =
      Some (default (PyInt (timeout (self st))) (kwargs !! "timeout")) ∧
    (∀ k, k ≠ "timeout" -> req_kwargs first !! k = kwargs !! k).
Proof.
  destruct request_journal_head as [rest Hj]. exists rq, rest.
  split; [exact Hj |]. split; [reflexivity |]. split; [reflexivity |].
  unfold rq, request_of, setdefault. simpl.
  destruct (kwargs !! "timeout") as [v |] eqn:Hk; simpl.
  - split; [exact Hk | reflexivity].
  - split; [apply lookup_insert_eq |].
    intros k Hne. apply lookup_insert_ne. congruence.
Qed.

(** X5: an exception of the first attempt that is neither a connection
    error nor a timeout leaves the executor as it came, after that one
    attempt; it is not an SDK error, so a caller's [except OshiBotError]
    does not catch it. *)
Theorem X5_other_exceptions_escape c :
  transport (journal st) rq = Failed c ->
  is_ConnectionError (PyError c) = false ->
  is_Timeout (PyError c) = false ->
  run = (Raise (PyError c), advance st [EvRequest rq]) ∧
  is_OshiBotError (PyError c) = false.
Proof.
  intros H Hc Ht. unfold run.
  rewrite (request_first_failed _ _ _ _ _ c H), Hc, Ht. split; reflexivity.
Qed.

(** X6: an exception that is both a connection error and a timeout (a
    connect timeout) is reported by the first [except] clause, as a
    failed connection to the URL and not as a timeout. *)
Theorem X6_connect_timeout_is_connection_failure c :
  transport (journal st) rq = Failed c ->
  is_ConnectionError (PyError c) = true ->
  is_Timeout (PyError c) = true ->
  run.1 = Raise (SdkError OshiBotError
                   (PyStr ("Connection failed: "
                             +:+ base_url (self st) +:+ endpoint))).
Proof.
  intros H Hc Ht. unfold run.
  rewrite (request_first_failed _ _ _ _ _ c H), Hc. reflexivity.
Qed.

(** X7: what the retried attempt raises is dropped only if it is an
    [Exception]: anything else (a keyboard interrupt) leaves the
    executor, after both attempts. *)
Theorem X7_retry_interrupt_propagates r1 c :
  transport (journal st) rq = Returned r1 ->
  status_code r1 = 429 ->
  auto_retry (self st) = true ->
  transport (journal st ++ EvRequest rq :: retry_pause) rq = Failed c ->
  is_Exception (PyError c) = false ->
  run = (Raise (PyError c),
         advance st (EvRequest rq :: retry_pause ++ [EvRequest rq])).
Proof.
  intros H1 Hs1 Hretry H2 Hc. unfold run.
  rewrite (request_retry_failed _ _ _ _ _ r1 c H1 Hs1 Hretry H2), Hc.
  reflexivity.
Qed.

(** X8: a response from 400 up whose body parses to something that is not
    a JSON object (an array, a string, a number, null) makes the executor
    leave with [AttributeError], which is not an SDK error; the
    journal is that of the attempts made. *)
Theorem X8_error_status_with_non_object_body r evs v :
  answers transport st rq r evs ->
  json r = Some v ->
  (∀ d, v ≠ PyDict d) ->
  400 <= status_code r ->
  run = (Raise (PyError AttributeError), advance st evs) ∧
  is_OshiBotError (PyError AttributeError) = false.
Proof.
  intros Ha Hj Hv Hs. split; [| reflexivity].
  rewrite (surjective_pairing run). f_equal.
  - exact (non_dict_error_body _ _ _ _ _ r evs v Ha Hj Hv Hs).
  - unfold run. rewrite (request_answered _ _ _ _ _ _ _ Ha).
    apply parse_and_classify_state.
Qed.

End ExecutorExtras.

(** What parsing and classifying gives does not depend on the state. *)
Lemma parse_and_classify_outcome r st st' :
  (parse_and_classify r st).1 = (parse_and_classify r st').1.
Proof.
  unfold parse_and_classify. exec_unfold.
  destruct (json r) as [v |]; simpl; [| reflexivity].
  repeat (destruct (_ =? _); [destruct v; reflexivity |]).
  destruct (_ >=? _); destruct v; reflexivity.
Qed.

(** The executor reads the base address, the timeout and the retry flag
    of the instance and nothing else. *)
Lemma request_reads_wire_only transport method endpoint kwargs st1 st2 :
  same_wire (self st1) (self st2) ->
  journal st1 = journal st2 ->
  (_request transport method endpoint kwargs st1).1 =
    (_request transport method endpoint kwargs st2).1 ∧
  journal (_request transport method endpoint kwargs st1).2 =
    journal (_request transport method endpoint kwargs st2).2.
Proof.
  intros (Hb & Ht & Hr) Hj.
  assert (Hq : request_of (self st1) method endpoint kwargs =
               request_of (self st2) method endpoint kwargs)
    by (unfold request_of; rewrite Hb, Ht; reflexivity).
  destruct (transport (journal st1) (request_of (self st1) method endpoint kwargs))
    as [r1 | c] eqn:H1.
  - pose proof H1 as H1'. rewrite Hj, Hq in H1'.
    destruct (Z.eq_dec (status_code r1) 429) as [Hs1 | Hs1].
    + destruct (auto_retry (self st1)) eqn:Hretry.
      * pose proof (eq_sym Hr) as Hretry'.
        destruct (transport (journal st1 ++
                    EvRequest (request_of (self st1) method endpoint kwargs)
                    :: retry_pause)
                    (request_of (self st1) method endpoint kwargs))
          as [r2 | c] eqn:H2.
        -- pose proof H2 as H2'. rewrite Hj, Hq in H2'.
           destruct (Z.eq_dec (status_code r2) 429) as [Hs2 | Hs2].
           ++ rewrite (request_limited_twice _ _ _ _ _ r1 r2 H1 Hs1 Hretry H2 Hs2).
              rewrite (request_limited_twice _ _ _ _ _ r1 r2 H1' Hs1 Hretry' H2' Hs2).
              simpl. rewrite Hj, Hq. split; reflexivity.
           ++ rewrite (request_answered _ _ _ _ _ _ _
                         (answers_retry _ _ _ r1 r2 H1 Hs1 Hretry H2 Hs2)).
              rewrite (request_answered _ _ _ _ _ _ _
                         (answers_retry _ _ _ r1 r2 H1' Hs1 Hretry' H2' Hs2)).
              rewrite !parse_and_classify_state. simpl. rewrite Hj, Hq.
              split; [apply parse_and_classify_outcome | reflexivity].
        -- pose proof H2 as H2'. rewrite Hj, Hq in H2'.
           rewrite (request_retry_failed _ _ _ _ _ r1 c H1 Hs1 Hretry H2).
           rewrite (request_retry_failed _ _ _ _ _ r1 c H1' Hs1 Hretry' H2').
           simpl. rewrite Hj, Hq. split; reflexivity.
      * pose proof (eq_sym Hr) as Hretry'.
        rewrite (request_limited_no_retry _ _ _ _ _ r1 H1 Hs1 Hretry).
        rewrite (request_limited_no_retry _ _ _ _ _ r1 H1' Hs1 Hretry').
        simpl. rewrite Hj, Hq. split; reflexivity.
    + rewrite (request_answered _ _ _ _ _ _ _ (answers_first _ _ _ r1 H1 Hs1)).
      rewrite (request_answered _ _ _ _ _ _ _ (answers_first _ _ _ r1 H1' Hs1)).
      rewrite !parse_and_classify_state. simpl. rewrite Hj, Hq.
      split; [apply parse_and_classify_outcome | reflexivity].
  - pose proof H1 as H1'. rewrite Hj, Hq in H1'.
    rewrite (request_first_failed _ _ _ _ _ c H1).
    rewrite (request_first_failed _ _ _ _ _ c H1').
    unfold request_of, advance. simpl. rewrite Hj, Hb, Ht.
    destruct c; split; reflexivity.
Qed.

(** X9: the token of the instance reaches the network only where a
    method puts it into its arguments: two instances that differ in their
    token alone get the same outcome and cause the same traffic from the
    executor for the same arguments, and so from [list_bots], which sends
    no token at all. *)
Theorem X9_list_bots_sends_no_token transport st1 st2 :
  same_wire (self st1) (self st2) ->
  journal st1 = journal st2 ->
  (∀ method endpoint kwargs,
     (_request transport method endpoint kwargs st1).1 =
       (_request transport method endpoint kwargs st2).1 ∧
     journal (_request transport method endpoint kwargs st1).2 =
       journal (_request transport method endpoint kwargs st2).2) ∧
  (list_bots transport st1).1 = (list_bots transport st2).1 ∧
  journal (list_bots transport st1).2 = journal (list_bots transport st2).2.
Proof.
  intros Hw Hj. split.
  - intros method endpoint kwargs. apply request_reads_wire_only; assumption.
  - unfold list_bots. apply request_reads_wire_only; assumption.
Qed.

(* ------------------------------------------------------------------ *)
(** ** The payload builders and the convenience methods *)

Section Operations.

Variable transport : list event -> Request -> reply.
Variable repr_of : pyval -> string.
Variable st : State.

Ltac first_request :=
  exec_unfold; simpl;
  match goal with
  | |- context [_request ?tr ?m ?ep ?kw ?s] =>
      destruct (request_journal_head tr m ep kw s) as [rest Hrest];
      eexists _, rest; split; [exact Hrest |]
  end;
  repeat split.

(** X10: the wire format of the six operations.  Each first issues the
    request of its row: [send], [register] and [update_groups] POST a
    JSON body that holds the token and their arguments and no query
    parameters; [info] and [unregister] put the token into the query
    parameters of a GET and a DELETE and send no body; [list_bots] sends
    neither, only the timeout. *)
Theorem X10_wire_format :
  (∀ group_id content, ∃ rq rest,
     journal (send transport group_id content st).2
       = journal st ++ EvRequest rq :: rest ∧
     req_method rq = "POST" ∧
     req_url rq = base_url (self st) +:+ "/api/bot/send" ∧
     req_kwargs rq !! "json" =
       Some (PyDict (<["token" := PyStr (token (self st))]>
                     (<["groupId" := group_id]>
                     (<["content" := PyStr content]> ∅)))) ∧
     req_kwargs rq !! "params" = None) ∧
  (∃ rq rest,
     journal (info transport st).2 = journal st ++ EvRequest rq :: rest ∧
     req_method rq = "GET" ∧
     req_url rq = base_url (self st) +:+ "/api/bot/info" ∧
     req_kwargs rq !! "params" =
       Some (PyDict {["token" := PyStr (token (self st))]}) ∧
     req_kwargs rq !! "json" = None) ∧
  (∀ bot_name key groups, ∃ rq rest,
     journal (register transport bot_name key groups st).2
       = journal st ++ EvRequest rq :: rest ∧
     req_method rq = "POST" ∧
     req_url rq = base_url (self st) +:+ "/api/bot/register" ∧
     req_kwargs rq !! "json" =
       Some (PyDict (<["token" := PyStr (token (self st))]>
                     (<["botName" := PyStr bot_name]>
                     (<["ownerPublicKey" := PyStr key]>
                     (<["groups" := PyList (default [] groups)]> ∅))))) ∧
     req_kwargs rq !! "params" = None) ∧
  (∀ groups, ∃ rq rest,
     journal (update_groups transport groups st).2
       = journal st ++ EvRequest rq :: rest ∧
     req_method rq = "POST" ∧
     req_url rq = base_url (self st) +:+ "/api/bot/update-groups" ∧
     req_kwargs rq !! "json" =
       Some (PyDict (<["token" := PyStr (token (self st))]>
                     (<["groups" := PyList groups]> ∅))) ∧
     req_kwargs rq !! "params" = None) ∧
  (∃ rq rest,
     journal (unregister transport st).2 = journal st ++ EvRequest rq :: rest ∧
     req_method rq = "DELETE" ∧
     req_url rq = base_url (self st) +:+ "/api/bot/unregister" ∧
     req_kwargs rq !! "params" =
       Some (PyDict {["token" := PyStr (token (self st))]}) ∧
     req_kwargs rq !! "json" = None) ∧
  (∃ rq rest,
     journal (list_bots transport st).2 = journal st ++ EvRequest rq :: rest ∧
     req_method rq = "GET" ∧
     req_url rq = base_url (self st) +:+ "/api/bot/list" ∧
     req_kwargs rq = {["timeout" := PyInt (timeout (self st))]}).
Proof.
  repeat split.
  - intros group_id content. unfold send. first_request.
  - unfold info. first_request.
  - intros bot_name key groups. unfold register. first_request.
  - intros groups. unfold update_groups. first_request.
  - unfold unregister. first_request.
  - unfold list_bots. first_request.
Qed.

(** X11: [get_groups] and [get_stats] cost one [info] and nothing else,
    and fall back on defaults: without a [bot] entry in the body, or
    without a [groups] or [stats] entry in it, they return the empty
    list and the empty dict; a [bot] entry that is not a dict makes
    them leave with [AttributeError]. *)
Theorem X11_groups_and_stats_defaults bi st1 :
  info transport st = (Return (PyDict bi), st1) ->
  (bi !! "bot" = None ->
     get_groups transport st = (Return (PyList []), st1) ∧
     get_stats transport st = (Return (PyDict ∅), st1)) ∧
  (∀ b, bi !! "bot" = Some (PyDict b) ->
     get_groups transport st = (Return (default (PyList []) (b !! "groups")), st1) ∧
     get_stats transport st = (Return (default (PyDict ∅) (b !! "stats")), st1)) ∧
  (∀ v, bi !! "bot" = Some v -> (∀ b, v ≠ PyDict b) ->
     get_groups transport st = (Raise (PyError AttributeError), st1) ∧
     get_stats transport st = (Raise (PyError AttributeError), st1)).
Proof.
  intros Hinfo. unfold get_groups, get_stats, mbind, Exec_bind.
  rewrite Hinfo. simpl. split; [| split].
  - intros ->. split; reflexivity.
  - intros b ->. split; reflexivity.
  - intros v -> Hv. destruct v; try (split; reflexivity).
    exfalso. eapply Hv. reflexivity.
Qed.

(** X12: with nothing to send to, the bulk send returns the empty list
    after the one [info]: when the body has no [bot] entry, or the
    [bot] entry has no [groups] entry or an empty list of groups. *)
Theorem X12_bulk_send_without_groups content bi st1 :
  info transport st = (Return (PyDict bi), st1) ->
  bi !! "bot" = None ∨
  (∃ b, bi !! "bot" = Some (PyDict b) ∧
        (b !! "groups" = None ∨ b !! "groups" = Some (PyList []))) ->
  send_to_all_groups transport repr_of content st = (Return [], st1).
Proof.
  intros Hinfo H. unfold send_to_all_groups, mbind, Exec_bind.
  rewrite Hinfo. simpl.
  destruct H as [-> | (b & -> & H)]; [reflexivity |].
  simpl. destruct H as [-> | ->]; reflexivity.
Qed.

(** While the sends raise nothing but SDK errors the loop goes on: after
    a first run of groups it stands at the next group with one entry
    for each group of the run. *)
Lemma send_each_prefix content groups ids :
  Forall2 group_with_id groups ids ->
  ∀ rest results st0 outs st',
    send_in_turn transport content ids st0 = (outs, st') ->
    Forall classified outs ->
    send_each transport repr_of content (groups ++ rest) results st0 =
      send_each transport repr_of content rest
        (results ++ zip_with (entry repr_of) ids outs) st'.
Proof.
  induction 1 as [| group gid groups ids (d & -> & Hid) _ IH];
    intros rest results st0 outs st' Hturn Hcl; simpl in Hturn.
  - injection Hturn as <- <-. simpl. rewrite app_nil_r. reflexivity.
  - destruct (send transport gid content st0) as [o s1] eqn:Hsend.
    destruct (send_in_turn transport content ids s1) as [os s2] eqn:Hrest.
    injection Hturn as <- <-.
    apply Forall_cons in Hcl as [Ho Hos].
    specialize (IH rest (results ++ [entry repr_of gid o]) s1 os s2 Hrest Hos).
    rewrite <- app_assoc in IH. simpl in IH.
    simpl. rewrite <- IH. clear IH.
    unfold mbind, Exec_bind, try_except, py_getitem. rewrite Hid.
    unfold mret at 1, Exec_ret at 1. rewrite Hsend.
    destruct o as [body | e]; simpl.
    + reflexivity.
    + specialize (Ho e eq_refl). destruct e as [c arg | c]; [| discriminate].
      unfold mret at 1, Exec_ret at 1. reflexivity.
Qed.

(** X13: however many sends raise SDK errors, the bulk send returns one
    entry for each group, in the order of the groups: the body where the
    send returned, and where it raised a failure record with the id of
    the group and the text of the error. *)
Theorem X13_bulk_send_any_failures content bi b groups ids st1 outs st2 :
  info transport st = (Return (PyDict bi), st1) ->
  bi !! "bot" = Some (PyDict b) ->
  b !! "groups" = Some (PyList groups) ->
  Forall2 group_with_id groups ids ->
  send_in_turn transport content ids st1 = (outs, st2) ->
  Forall classified outs ->
  ∃ results,
    send_to_all_groups transport repr_of content st = (Return results, st2) ∧
    length results = length groups ∧
    (∀ j body, outs !! j = Some (Return body) -> results !! j = Some body) ∧
    (∀ j gid c arg,
       ids !! j = Some gid -> outs !! j = Some (Raise (SdkError c arg)) ->
       results !! j = Some (failure_record repr_of gid arg)).
Proof.
  intros Hinfo Hbot Hgroups Hids Hturn Hcl.
  pose proof (send_in_turn_length _ _ _ _ _ _ Hturn) as Hlen.
  pose proof (Forall2_length _ _ _ Hids) as Hlen'.
  exists (zip_with (entry repr_of) ids outs).
  split; [| split; [| split]].
  - unfold send_to_all_groups, mbind, Exec_bind. rewrite Hinfo.
    simpl. rewrite Hbot. simpl. rewrite Hgroups. simpl.
    exact (send_each_collects _ _ _ groups ids Hids [] st1 outs st2 Hturn Hcl).
  - rewrite length_zip_with. lia.
  - intros j body Hj. rewrite lookup_zip_with.
    destruct (ids !! j) as [gid |] eqn:Hgid.
    + simpl. rewrite Hj. reflexivity.
    + apply lookup_ge_None in Hgid. apply lookup_lt_Some in Hj. lia.
  - intros j gid c arg Hgid Hj. rewrite lookup_zip_with, Hgid. simpl.
    rewrite Hj. reflexivity.
Qed.

(** X14: an exception of a send that is not an SDK error ends the bulk
    send at once: it leaves [send_to_all_groups] as it came, the entries
    collected for the groups before are not returned, and the groups
    after are not sent to. *)
Theorem X14_bulk_send_stops_at_foreign_exception
    content bi b before group after ids gid st1 outs st2 c st3 :
  info transport st = (Return (PyDict bi), st1) ->
  bi !! "bot" = Some (PyDict b) ->
  b !! "groups" = Some (PyList (before ++ group :: after)) ->
  Forall2 group_with_id before ids ->
  send_in_turn transport content ids st1 = (outs, st2) ->
  Forall classified outs ->
  group_with_id group gid ->
  send transport gid content st2 = (Raise (PyError c), st3) ->
  send_to_all_groups transport repr_of content st = (Raise (PyError c), st3).
Proof.
  intros Hinfo Hbot Hgroups Hids Hturn Hcl (d & -> & Hid) Hsend.
  unfold send_to_all_groups, mbind, Exec_bind. rewrite Hinfo.
  simpl. rewrite Hbot. simpl. rewrite Hgroups. simpl.
  rewrite (send_each_prefix content before ids Hids _ [] st1 outs st2 Hturn Hcl).
  simpl. unfold mbind, Exec_bind, try_except, py_getitem. rewrite Hid.
  unfold mret at 1, Exec_ret at 1. rewrite Hsend. reflexivity.
Qed.

(** X15: a group descriptor without an [id] entry ends the bulk send
    with [KeyError] before anything is sent for it; the groups after it
    are not sent to. *)
Theorem X15_bulk_send_stops_at_group_without_id
    content bi b before d after ids st1 outs st2 :
  info transport st = (Return (PyDict bi), st1) ->
  bi !! "bot" = Some (PyDict b) ->
  b !! "groups" = Some (PyList (before ++ PyDict d :: after)) ->
  Forall2 group_with_id before ids ->
  send_in_turn transport content ids st1 = (outs, st2) ->
  Forall classified outs ->
  d !! "id" = None ->
  send_to_all_groups transport repr_of content st = (Raise (PyError KeyError), st2).
Proof.
  intros Hinfo Hbot Hgroups Hids Hturn Hcl Hid.
  unfold send_to_all_groups, mbind, Exec_bind. rewrite Hinfo.
  simpl. rewrite Hbot. simpl. rewrite Hgroups. simpl.
  rewrite (send_each_prefix content before ids Hids _ [] st1 outs st2 Hturn Hcl).
  simpl. unfold mbind, Exec_bind, try_except, py_getitem. rewrite Hid.
  reflexivity.
Qed.

End Operations.

(* ------------------------------------------------------------------ *)
(** ** The MoltBot bridge *)

Section BridgeFacts.

Variable transport : list event -> Request -> reply.

(** X16: a bridge asked to send with no group given (none, or the empty
    string) and no default group set (none, or the empty string) raises
    the base error and makes no request. *)
Theorem X16_bridge_send_without_target this message group_id journal :
  truthy group_id = false ->
  truthy (Bridge.default_group this) = false ->
  Bridge.send transport this message group_id journal =
    (Raise (SdkError OshiBotError
              (PyStr "No group_id specified and no default_group set")),
     mkState (Bridge.bot this) journal).
Proof.
  intros Hg Hd. unfold Bridge.send, Bridge.on_bot, py_or.
  rewrite Hg, Hd. reflexivity.
Qed.

(** X17: the bridge sends to the group it is given when that is a
    non-empty string, whatever the default; given none or the empty
    string it sends to its default group; the send is the bot's [send]
    on the bridge's bot. *)
Theorem X17_bridge_send_target this message group_id journal :
  (∀ g, group_id = Some g -> g ≠ EmptyString ->
     Bridge.send transport this message group_id journal =
       send transport (PyStr g) message (mkState (Bridge.bot this) journal)) ∧
  (∀ d, truthy group_id = false ->
     Bridge.default_group this = Some d -> d ≠ EmptyString ->
     Bridge.send transport this message group_id journal =
       send transport (PyStr d) message (mkState (Bridge.bot this) journal)).
Proof.
  split.
  - intros g -> Hg. unfold Bridge.send, Bridge.on_bot, py_or.
    destruct g; [contradiction | reflexivity].
  - intros d Hgid Hd Hne. unfold Bridge.send, Bridge.on_bot, py_or.
    rewrite Hgid, Hd. destruct d; [contradiction | reflexivity].
Qed.

End BridgeFacts.

(** X18: the display form of a bridge shows of the token what the
    display form of its bot shows, the first 8 characters: bridges whose
    tokens agree on them, with the same default group and base address,
    display alike. *)
Theorem X18_bridge_repr_shows_prefix_only t1 t2 group base :
  py_prefix 8 t1 = py_prefix 8 t2 ->
  Bridge.__repr__ (Bridge.__init__ t1 group base) =
    Bridge.__repr__ (Bridge.__init__ t2 group base).
Proof.
  intros H. unfold Bridge.__repr__, Bridge.__init__, __repr__, __init__. simpl.
  rewrite H. reflexivity.
Qed.

(* ------------------------------------------------------------------ *)
(** ** The command line *)

Ltac prog_unfold :=
  unfold mbind, mret, Prog_bind, Prog_ret, prog_try, sys_exit, stop, print,
    print_err, invoke, lift.

Section CommandLine.

Variable transport : list event -> Request -> reply.
Variable repr_of : pyval -> string.
Variable json_dumps : pyval -> string.

Let command_line := cli transport repr_of json_dumps.

(** X19: without a command, or with the command [help], the command
    line prints the help text, makes no request and exits with 0. *)
Theorem X19_cli_help argv w :
  (length argv < 2)%nat ∨ argv !! 1%nat = Some "help" ->
  command_line argv w =
    (Stopped (SystemExit 0),
     mkWorld (network w) (stdout w ++ [help_text]) (stderr w)).
Proof.
  intros H. unfold command_line, cli.
  assert (Hc : (length argv <? 2)%nat || String.eqb (argv_at argv 1) "help" = true).
  { destruct H as [H | H].
    - apply Nat.ltb_lt in H. rewrite H. reflexivity.
    - unfold argv_at. rewrite H. apply orb_true_r. }
  rewrite Hc. reflexivity.
Qed.

(** X20: a command the command line does not know, or one with too few
    arguments ([send] with fewer than three, [info], [groups] or
    [stats] without a token), is answered with the line
    "Unknown command: <cmd>" and the help text on standard output and
    exit code 1, and no request is made. *)
Theorem X20_cli_usage_error argv cmd w :
  argv !! 1%nat = Some cmd ->
  cmd ≠ "help" ->
  (cmd = "send" -> (length argv < 5)%nat) ->
  (cmd = "info" ∨ cmd = "groups" ∨ cmd = "stats" -> (length argv < 3)%nat) ->
  cmd ≠ "list" ->
  command_line argv w =
    (Stopped (SystemExit 1),
     mkWorld (network w)
       (stdout w ++ ["Unknown command: " +:+ cmd; help_text]) (stderr w)).
Proof.
  intros Hcmd Hhelp Hsend Hthree Hlist. unfold command_line, cli.
  pose proof (lookup_lt_Some _ _ _ Hcmd) as Hlen.
  assert (Hl : (length argv <? 2)%nat = false) by (apply Nat.ltb_ge; lia).
  unfold argv_at. rewrite Hcmd, Hl. simpl.
  destruct (String.eqb_spec cmd "help") as [-> | _]; [contradiction |].
  prog_unfold.
  destruct (String.eqb_spec cmd "send") as [-> | _].
  { assert (H5 : (5 <=? length argv)%nat = false)
      by (apply Nat.leb_gt; auto).
    simpl in H5. rewrite H5. simpl. rewrite <- app_assoc. reflexivity. }
  assert (H3 : cmd = "info" ∨ cmd = "groups" ∨ cmd = "stats" ->
               (3 <=? length argv)%nat = false)
    by (intros H; apply Nat.leb_gt; auto).
  simpl in H3.
  destruct (String.eqb_spec cmd "info") as [-> | _].
  { rewrite H3 by auto. simpl. rewrite <- app_assoc. reflexivity. }
  destruct (String.eqb_spec cmd "groups") as [-> | _].
  { rewrite H3 by auto. simpl. rewrite <- app_assoc. reflexivity. }
  destruct (String.eqb_spec cmd "stats") as [-> | _].
  { rewrite H3 by auto. simpl. rewrite <- app_assoc. reflexivity. }
  destruct (String.eqb_spec cmd "list") as [-> | _]; [contradiction |].
  simpl. rewrite <- app_assoc. reflexivity.
Qed.

(** X21: the [send] command builds a client from its token argument
    with the default settings and sends once.  The returned body is
    printed as JSON and the script ends normally; an SDK error is printed
    as "Error: <text>" on standard error, nothing on standard output,
    and the exit code is 1; any other exception is not caught. *)
Theorem X21_cli_send script tok gid msg more w o st1 :
  send transport (PyStr gid) msg (mkState (new_bot tok) (network w)) = (o, st1) ->
  command_line (script :: "send" :: tok :: gid :: msg :: more) w =
    match o with
    | Return result =>
        (Done tt,
         mkWorld (journal st1) (stdout w ++ [json_dumps result]) (stderr w))
    | Raise (SdkError _ arg) =>
        (Stopped (SystemExit 1),
         mkWorld (journal st1) (stdout w)
           (stderr w ++ ["Error: " +:+ py_str repr_of arg]))
    | Raise (PyError c) =>
        (Stopped (Exception (PyError c)),
         mkWorld (journal st1) (stdout w) (stderr w))
    end.
Proof.
  intros Hsend. unfold command_line, cli, argv_at. simpl.
  prog_unfold. rewrite Hsend.
  destruct o as [result | [c arg | c]]; reflexivity.
Qed.

(** Printing the lines of printable groups, in order. *)
Lemma print_group_lines groups :
  Forall printable_group groups ->
  ∀ w,
    for_each groups (λ g,
      name ← lift (getitem g "name");
      gid ← lift (getitem g "id");
      members ← lift (dict_get g "memberCount" (PyStr "?"));
      print ("  " +:+ py_str repr_of name +:+ " (id: " +:+ py_str repr_of gid
               +:+ ", members: " +:+ py_str repr_of members +:+ ")")) w =
    (Done tt,
     mkWorld (network w) (stdout w ++ map (group_line repr_of) groups) (stderr w)).
Proof.
  induction 1 as [| g groups (d & -> & [name Hname] & [gid Hgid]) _ IH];
    intros w; simpl.
  - rewrite app_nil_r. destruct w; reflexivity.
  - prog_unfold. simpl. rewrite Hname, Hgid. simpl.
    unfold mbind, Prog_bind in IH. rewrite IH. simpl.
    rewrite <- app_assoc. reflexivity.
Qed.

(** X22: the [groups] command prints one line for each group
    [get_groups] returns, in their order, when every group is a dict
    with a [name] and an [id]; the member count is shown as "?" where
    the group has none. *)
Theorem X22_cli_groups_lines script tok more w groups st1 :
  get_groups transport (mkState (new_bot tok) (network w))
    = (Return (PyList groups), st1) ->
  Forall printable_group groups ->
  command_line (script :: "groups" :: tok :: more) w =
    (Done tt,
     mkWorld (journal st1) (stdout w ++ map (group_line repr_of) groups)
       (stderr w)).
Proof.
  intros Hget Hgroups. unfold command_line, cli, argv_at. simpl.
  unfold prog_try, mbind at 1, Prog_bind at 1, invoke. rewrite Hget.
  unfold mbind at 1, Prog_bind at 1, lift. simpl.
  rewrite (print_group_lines groups Hgroups). reflexivity.
Qed.

(** X26: whatever the command, an SDK error of its method is printed as
    "Error: <text>" on standard error and the exit code is 1: for
    [info], [groups], [stats] with their token argument, and for [list],
    which builds its client from the token "dummy". *)
Theorem X26_cli_reports_sdk_errors script tok more w c arg st1 :
  let reported :=
    (Stopped (SystemExit 1),
     mkWorld (journal st1) (stdout w)
       (stderr w ++ ["Error: " +:+ py_str repr_of arg])) in
  (info transport (mkState (new_bot tok) (network w))
     = (Raise (SdkError c arg), st1) ->
   command_line (script :: "info" :: tok :: more) w = reported) ∧
  (get_groups transport (mkState (new_bot tok) (network w))
     = (Raise (SdkError c arg), st1) ->
   command_line (script :: "groups" :: tok :: more) w = reported) ∧
  (get_stats transport (mkState (new_bot tok) (network w))
     = (Raise (SdkError c arg), st1) ->
   command_line (script :: "stats" :: tok :: more) w = reported) ∧
  (list_bots transport (mkState (new_bot "dummy") (network w))
     = (Raise (SdkError c arg), st1) ->
   command_line (script :: "list" :: more) w = reported).
Proof.
  intros reported. unfold reported, command_line, cli, argv_at.
  repeat split; intros H; simpl; prog_unfold; rewrite H; reflexivity.
Qed.

End CommandLine.

(* ------------------------------------------------------------------ *)
(** ** The example script *)

Section HelloBot.

Variable transport : list event -> Request -> reply.
Variable repr_of : pyval -> string.

Let main := hello_bot.main transport repr_of.
Let bot0 := new_bot hello_bot.BOT_TOKEN.
Let greeting := "SDK initialized: " +:+ __repr__ bot0.

(** X23: when the first step, [info], raises, the example stops there
    and sends nothing: an Auth error and any other SDK error are
    reported on standard output, each with its own line, and the exit
    code is 1; another exception is not caught. *)
Theorem X23_hello_stops_when_info_fails w e st1 :
  info transport (mkState bot0 (network w)) = (Raise e, st1) ->
  main w =
    match e with
    | SdkError OshiAuthError _ =>
        (Stopped (SystemExit 1),
         mkWorld (journal st1)
           (stdout w ++
              [greeting;
               "ERROR: Invalid bot token. Check your token in the OSHI app."])
           (stderr w))
    | SdkError _ arg =>
        (Stopped (SystemExit 1),
         mkWorld (journal st1)
           (stdout w ++
              [greeting;
               "ERROR: Could not fetch bot info: " +:+ py_str repr_of arg])
           (stderr w))
    | PyError _ =>
        (Stopped (Exception e),
         mkWorld (journal st1) (stdout w ++ [greeting]) (stderr w))
    end.
Proof.
  intros Hinfo. unfold main, hello_bot.main. fold bot0. fold greeting.
  prog_unfold. simpl. rewrite Hinfo.
  destruct e as [[] arg | c]; simpl; rewrite <- ?app_assoc; reflexivity.
Qed.

(** X24: when [info] answers with a body without a [bot] entry, the
    example prints the name "unknown" and 0 groups and goes on to the
    send; when the send raises, it stops there and never asks for the
    statistics: a GroupAssignment error and any other SDK error are
    reported on standard output and the exit code is 1; another
    exception is not caught. *)
Theorem X24_hello_stops_when_send_fails w bi st1 e st2 :
  info transport (mkState bot0 (network w)) = (Return (PyDict bi), st1) ->
  bi !! "bot" = None ->
  send transport (PyStr hello_bot.GROUP_ID) "Hello from OSHI Bot!"
    (mkState (self st1) (journal st1)) = (Raise e, st2) ->
  main w =
    match e with
    | SdkError OshiGroupError _ =>
        (Stopped (SystemExit 1),
         mkWorld (journal st2)
           (stdout w ++
              [greeting; "Bot name: unknown"; "Registered groups: 0";
               "ERROR: Bot is not assigned to group YOUR_GROUP_ID.";
               "  Assign it in the OSHI app under Portal > Bots > Edit."])
           (stderr w))
    | SdkError _ arg =>
        (Stopped (SystemExit 1),
         mkWorld (journal st2)
           (stdout w ++
              [greeting; "Bot name: unknown"; "Registered groups: 0";
               "ERROR: Failed to send message: " +:+ py_str repr_of arg])
           (stderr w))
    | PyError _ =>
        (Stopped (Exception e),
         mkWorld (journal st2)
           (stdout w ++ [greeting; "Bot name: unknown"; "Registered groups: 0"])
           (stderr w))
    end.
Proof.
  intros Hinfo Hbot Hsend. unfold main, hello_bot.main. fold bot0. fold greeting.
  prog_unfold. simpl. rewrite Hinfo. simpl. rewrite Hbot. simpl.
  rewrite !lookup_empty. simpl.
  rewrite Hsend.
  destruct e as [[] arg | c]; simpl; rewrite <- ?app_assoc; reflexivity.
Qed.

(** Binding in a script is associative, and respects pointwise equal
    continuations. *)
Lemma prog_bind_assoc {A B C : Type} (m : Prog A) (f : A -> Prog B)
    (g : B -> Prog C) w :
  ((m ≫= f) ≫= g) w = (m ≫= (λ a, f a ≫= g)) w.
Proof.
  unfold mbind, Prog_bind. destruct (m w) as [[a | s] w']; reflexivity.
Qed.

Lemma prog_bind_ext {A B : Type} (m : Prog A) (f g : A -> Prog B) w :
  (∀ a w', f a w' = g a w') -> (m ≫= f) w = (m ≫= g) w.
Proof.
  intros H. unfold mbind, Prog_bind.
  destruct (m w) as [[a | s] w']; [apply H | reflexivity].
Qed.

(** [main] is its first two steps followed by its last. *)
Lemma main_in_steps w :
  main w =
    (hello_bot.first_steps transport repr_of
       ≫= hello_bot.show_stats transport repr_of) w.
Proof.
  unfold main, hello_bot.main, hello_bot.first_steps. cbv zeta.
  rewrite prog_bind_assoc.
  apply prog_bind_ext. intros [] w0.
  rewrite prog_bind_assoc. reflexivity.
Qed.

(** X25: the last step of the example is not guarded: whenever the
    greeting and the first two steps come through, whatever they
    printed, anything [get_stats] then raises, an SDK error too, leaves
    the script uncaught; the lines of the first two steps stay printed
    and nothing is added to them. *)
Theorem X25_hello_stats_failure_uncaught w bot w2 e st3 :
  hello_bot.first_steps transport repr_of w = (Done bot, w2) ->
  get_stats transport (mkState bot (network w2)) = (Raise e, st3) ->
  main w =
    (Stopped (Exception e), mkWorld (journal st3) (stdout w2) (stderr w2)).
Proof.
  intros Hsteps Hstats. rewrite main_in_steps.
  unfold mbind at 1, Prog_bind at 1. rewrite Hsteps.
  unfold hello_bot.show_stats, mbind at 1, Prog_bind at 1, invoke.
  rewrite Hstats. reflexivity.
Qed.

End HelloBot.

(* ------------------------------------------------------------------ *)
(** ** The further theorems at work on the scenarios *)

(** A redirect loop at the first attempt. *)
Lemma X5_witness :
  _request (always (Failed RequestException)) "GET" "/api/bot/list" ∅
    (fresh sample_bot) =
  (Raise (PyError RequestException),
   advance (fresh sample_bot)
     [EvRequest (request_of sample_bot "GET" "/api/bot/list" ∅)]).
Proof.
  exact (proj1 (X5_other_exceptions_escape (always (Failed RequestException))
                  "GET" "/api/bot/list" ∅ (fresh sample_bot) RequestException
                  eq_refl eq_refl eq_refl)).
Defined.

(** A connect timeout. *)
Lemma X6_witness :
  (_request (always (Failed ConnectTimeout)) "GET" "/api/bot/list" ∅
     (fresh sample_bot)).1 =
  Raise (SdkError OshiBotError
           (PyStr "Connection failed: https://oshi-messenger.com/api/bot/list")).
Proof.
  exact (X6_connect_timeout_is_connection_failure (always (Failed ConnectTimeout))
           "GET" "/api/bot/list" ∅ (fresh sample_bot) ConnectTimeout
           eq_refl eq_refl eq_refl).
Defined.

(** A 429 and then a keyboard interrupt during the retry. *)
Lemma X7_witness :
  (_request (first_then (Returned too_many_requests) (Failed KeyboardInterrupt))
     "GET" "/api/bot/list" ∅ (fresh sample_bot)).1 =
  Raise (PyError KeyboardInterrupt).
Proof.
  rewrite (X7_retry_interrupt_propagates
             (first_then (Returned too_many_requests) (Failed KeyboardInterrupt))
             "GET" "/api/bot/list" ∅ (fresh sample_bot)
             too_many_requests KeyboardInterrupt
             eq_refl eq_refl eq_refl eq_refl eq_refl).
  reflexivity.
Defined.

(** A 502 whose body is the JSON string "Bad Gateway". *)
Lemma X8_witness :
  (_request (always (Returned (mkResponse 502 (Some (PyStr "Bad Gateway")))))
     "GET" "/api/bot/list" ∅ (fresh sample_bot)).1 =
  Raise (PyError AttributeError).
Proof.
  assert (Ha : answers (always (Returned (mkResponse 502 (Some (PyStr "Bad Gateway")))))
                 (fresh sample_bot) (request_of sample_bot "GET" "/api/bot/list" ∅)
                 (mkResponse 502 (Some (PyStr "Bad Gateway")))
                 [EvRequest (request_of sample_bot "GET" "/api/bot/list" ∅)]).
  { apply answers_first; [reflexivity | simpl; lia]. }
  destruct (X8_error_status_with_non_object_body _ "GET" "/api/bot/list" ∅
              (fresh sample_bot) _ _ (PyStr "Bad Gateway") Ha eq_refl) as [Hrun _].
  - intros d. discriminate.
  - simpl. lia.
  - rewrite Hrun. reflexivity.
Defined.

(** The sample client and the client of the command line's [list]. *)
Lemma X9_witness :
  (list_bots (always (Returned (mkResponse 200 (Some sent_body))))
     (fresh sample_bot)).1 =
  (list_bots (always (Returned (mkResponse 200 (Some sent_body))))
     (fresh dummy_bot)).1.
Proof.
  destruct (X9_list_bots_sends_no_token
              (always (Returned (mkResponse 200 (Some sent_body))))
              (fresh sample_bot) (fresh dummy_bot)) as (_ & Hout & _).
  - repeat split.
  - reflexivity.
  - exact Hout.
Defined.

(** An [info] body that is the empty object. *)
Lemma X11_witness :
  (get_groups (always (Returned (mkResponse 200 (Some (PyDict ∅)))))
     (fresh sample_bot)).1 = Return (PyList []) ∧
  (get_stats (always (Returned (mkResponse 200 (Some (PyDict ∅)))))
     (fresh sample_bot)).1 = Return (PyDict ∅).
Proof.
  pose (tr := always (Returned (mkResponse 200 (Some (PyDict ∅))))).
  destruct (X11_groups_and_stats_defaults tr (fresh sample_bot) ∅
              (info tr (fresh sample_bot)).2 eq_refl) as [Hnone _].
  destruct (Hnone eq_refl) as [Hg Hs].
  fold tr. rewrite Hg, Hs. split; reflexivity.
Defined.

Lemma X12_witness :
  (send_to_all_groups (always (Returned (mkResponse 200 (Some (PyDict ∅)))))
     no_repr "hello" (fresh sample_bot)).1 = Return [].
Proof.
  pose (tr := always (Returned (mkResponse 200 (Some (PyDict ∅))))).
  fold tr.
  rewrite (X12_bulk_send_without_groups tr no_repr (fresh sample_bot) "hello" ∅
             (info tr (fresh sample_bot)).2 eq_refl (or_introl eq_refl)).
  reflexivity.
Defined.

(** Three groups, two of the sends refused. *)
Lemma X13_witness :
  ∃ results,
    (send_to_all_groups refusing_g2_missing_g3 no_repr "hello"
       (fresh sample_bot)).1 = Return results ∧
    length results = 3%nat ∧
    results !! 0%nat = Some sent_body ∧
    results !! 1%nat =
      Some (failure_record no_repr (PyStr "g2") (PyStr "Bot not assigned to group")) ∧
    results !! 2%nat =
      Some (failure_record no_repr (PyStr "g3") (PyStr "Group not found")).
Proof.
  pose (ids := [PyStr "g1"; PyStr "g2"; PyStr "g3"]).
  pose (st1 := (info refusing_g2_missing_g3 (fresh sample_bot)).2).
  destruct (X13_bulk_send_any_failures refusing_g2_missing_g3 no_repr
              (fresh sample_bot) "hello" info_body
              {["groups" := PyList three_groups]} three_groups ids st1
              (send_in_turn refusing_g2_missing_g3 "hello" ids st1).1
              (send_in_turn refusing_g2_missing_g3 "hello" ids st1).2)
    as (results & Hrun & Hlen & Hok & Hfail).
  - reflexivity.
  - reflexivity.
  - reflexivity.
  - repeat constructor; eexists; split; reflexivity.
  - reflexivity.
  - repeat constructor; intros e [= <-]; reflexivity.
  - exists results. rewrite Hrun.
    split; [reflexivity |]. split; [exact Hlen |].
    split; [apply Hok; reflexivity |].
    split; [eapply (Hfail 1%nat); reflexivity | eapply (Hfail 2%nat); reflexivity].
Defined.

(** Three groups, a redirect loop at the second. *)
Lemma X14_witness :
  (send_to_all_groups looping_at_g2 no_repr "hello" (fresh sample_bot)).1 =
  Raise (PyError RequestException).
Proof.
  pose (st1 := (info looping_at_g2 (fresh sample_bot)).2).
  pose (st2 := (send_in_turn looping_at_g2 "hello" [PyStr "g1"] st1).2).
  rewrite (X14_bulk_send_stops_at_foreign_exception looping_at_g2 no_repr
             (fresh sample_bot) "hello" info_body
             {["groups" := PyList three_groups]}
             [PyDict {["id" := PyStr "g1"]}] (PyDict {["id" := PyStr "g2"]})
             [PyDict {["id" := PyStr "g3"]}] [PyStr "g1"] (PyStr "g2") st1
             (send_in_turn looping_at_g2 "hello" [PyStr "g1"] st1).1 st2
             RequestException
             (send looping_at_g2 (PyStr "g2") "hello" st2).2).
  - reflexivity.
  - reflexivity.
  - reflexivity.
  - reflexivity.
  - repeat constructor; eexists; split; reflexivity.
  - reflexivity.
  - repeat constructor; intros e [=].
  - eexists; split; reflexivity.
  - reflexivity.
Defined.

(** Three groups, the second without an id. *)
Lemma X15_witness :
  (send_to_all_groups nameless_second_group no_repr "hello" (fresh sample_bot)).1 =
  Raise (PyError KeyError).
Proof.
  pose (st1 := (info nameless_second_group (fresh sample_bot)).2).
  rewrite (X15_bulk_send_stops_at_group_without_id nameless_second_group no_repr
             (fresh sample_bot) "hello"
             {["bot" := PyDict {["groups" := PyList
                [PyDict {["id" := PyStr "g1"]}; PyDict {["name" := PyStr "Alerts"]};
                 PyDict {["id" := PyStr "g3"]}]]}]}
             {["groups" := PyList
                [PyDict {["id" := PyStr "g1"]}; PyDict {["name" := PyStr "Alerts"]};
                 PyDict {["id" := PyStr "g3"]}]]}
             [PyDict {["id" := PyStr "g1"]}] {["name" := PyStr "Alerts"]}
             [PyDict {["id" := PyStr "g3"]}] [PyStr "g1"] st1
             (send_in_turn nameless_second_group "hello" [PyStr "g1"] st1).1
             (send_in_turn nameless_second_group "hello" [PyStr "g1"] st1).2).
  - reflexivity.
  - reflexivity.
  - reflexivity.
  - reflexivity.
  - repeat constructor; eexists; split; reflexivity.
  - reflexivity.
  - repeat constructor; intros e [=].
  - reflexivity.
Defined.

(** A bridge without a default group, asked to send to the empty string. *)
Lemma X16_witness :
  Bridge.send (always (Returned (mkResponse 200 (Some sent_body))))
    (Bridge.__init__ sample_token None default_base_url) "hello"
    (Some EmptyString) [] =
  (Raise (SdkError OshiBotError
            (PyStr "No group_id specified and no default_group set")),
   fresh sample_bot).
Proof.
  exact (X16_bridge_send_without_target
           (always (Returned (mkResponse 200 (Some sent_body))))
           (Bridge.__init__ sample_token None default_base_url) "hello"
           (Some EmptyString) [] eq_refl eq_refl).
Defined.

(** A bridge with the default group [g1]: an explicit group wins, the
    empty string falls back on the default. *)
Lemma X17_witness :
  let tr := always (Returned (mkResponse 200 (Some sent_body))) in
  let bridge := Bridge.__init__ sample_token (Some "g1") default_base_url in
  Bridge.send tr bridge "hello" (Some "g2") [] =
    send tr (PyStr "g2") "hello" (fresh sample_bot) ∧
  Bridge.send tr bridge "hello" (Some EmptyString) [] =
    send tr (PyStr "g1") "hello" (fresh sample_bot).
Proof.
  intros tr bridge. split.
  - destruct (X17_bridge_send_target tr bridge "hello" (Some "g2") []) as [Hgiven _].
    apply (Hgiven "g2" eq_refl). discriminate.
  - destruct (X17_bridge_send_target tr bridge "hello" (Some EmptyString) [])
      as [_ Hdefault].
    apply (Hdefault "g1" eq_refl eq_refl). discriminate.
Defined.

Lemma X18_witness :
  Bridge.__repr__ (Bridge.__init__ sample_token (Some "g1") default_base_url) =
  Bridge.__repr__
    (Bridge.__init__ "a1b2c3d4ffffffffffffffffffffffff" (Some "g1") default_base_url).
Proof.
  apply X18_bridge_repr_shows_prefix_only. reflexivity.
Defined.

(** The command line without arguments. *)
Lemma X19_witness :
  cli (always (Failed ConnectionError)) no_repr no_repr ["oshi_bot.py"] empty_world =
  (Stopped (SystemExit 0), mkWorld [] [help_text] []).
Proof.
  apply (X19_cli_help (always (Failed ConnectionError)) no_repr no_repr
           ["oshi_bot.py"] empty_world).
  left. simpl. lia.
Defined.

(** [send] without a message. *)
Lemma X20_witness :
  cli (always (Failed ConnectionError)) no_repr no_repr
    ["oshi_bot.py"; "send"; sample_token; "g1"] empty_world =
  (Stopped (SystemExit 1), mkWorld [] ["Unknown command: send"; help_text] []).
Proof.
  apply (X20_cli_usage_error (always (Failed ConnectionError)) no_repr no_repr
           ["oshi_bot.py"; "send"; sample_token; "g1"] "send" empty_world).
  - reflexivity.
  - discriminate.
  - intros _. simpl. lia.
  - intros [H | [H | H]]; discriminate.
  - discriminate.
Defined.

(** [send] to a group the bot is not assigned to. *)
Lemma X21_witness :
  let tr := always (Returned (mkResponse 403
                       (Some (error_body "Bot not assigned to group")))) in
  ∃ traffic,
    cli tr no_repr no_repr ["oshi_bot.py"; "send"; sample_token; "g1"; "hi"]
      empty_world =
    (Stopped (SystemExit 1),
     mkWorld traffic [] ["Error: Bot not assigned to group"]).
Proof.
  intros tr. eexists.
  rewrite (X21_cli_send tr no_repr no_repr "oshi_bot.py" sample_token "g1" "hi" []
             empty_world
             (send tr (PyStr "g1") "hi" (mkState (new_bot sample_token) [])).1
             (send tr (PyStr "g1") "hi" (mkState (new_bot sample_token) [])).2
             eq_refl).
  reflexivity.
Defined.

(** [groups] on a server with two named groups. *)
Lemma X22_witness :
  let tr := always (Returned (mkResponse 200 (Some (PyDict
              {["bot" := PyDict {["groups" := PyList two_named_groups]}]})))) in
  ∃ traffic,
    cli tr no_repr no_repr ["oshi_bot.py"; "groups"; sample_token] empty_world =
    (Done tt,
     mkWorld traffic
       ["  Alerts (id: g1, members: 12)"; "  News (id: g2, members: ?)"] []).
Proof.
  intros tr. eexists.
  rewrite (X22_cli_groups_lines tr no_repr no_repr "oshi_bot.py" sample_token []
             empty_world two_named_groups
             (get_groups tr (mkState (new_bot sample_token) [])).2 eq_refl).
  - reflexivity.
  - repeat constructor; eexists; (split; [reflexivity |]); split; eexists; reflexivity.
Defined.

(** [stats] while the server limits the rate, retry and all. *)
Lemma X26_witness :
  ∃ traffic,
    cli (always (Returned too_many_requests)) no_repr no_repr
      ["oshi_bot.py"; "stats"; sample_token] empty_world =
    (Stopped (SystemExit 1),
     mkWorld traffic [] ["Error: Rate limit: max 60 messages/minute"]).
Proof.
  eexists.
  destruct (X26_cli_reports_sdk_errors (always (Returned too_many_requests))
              no_repr no_repr "oshi_bot.py" sample_token [] empty_world
              OshiRateLimitError (PyStr "Rate limit: max 60 messages/minute")
              (get_stats (always (Returned too_many_requests))
                 (mkState (new_bot sample_token) [])).2)
    as (_ & _ & Hstats & _).
  rewrite (Hstats eq_refl). reflexivity.
Defined.

(** The example against a server that rejects the token. *)
Lemma X23_witness :
  let tr := always (Returned (mkResponse 401 (Some (error_body "Invalid bot token")))) in
  ∃ traffic,
    hello_bot.main tr no_repr empty_world =
    (Stopped (SystemExit 1),
     mkWorld traffic
       ["SDK initialized: OshiBot(token='YOUR_BOT...', base_url='https://oshi-messenger.com')";
        "ERROR: Invalid bot token. Check your token in the OSHI app."] []).
Proof.
  intros tr. eexists.
  rewrite (X23_hello_stops_when_info_fails tr no_repr empty_world
             (SdkError OshiAuthError (PyStr "Invalid bot token"))
             (info tr (mkState (new_bot hello_bot.BOT_TOKEN) [])).2 eq_refl).
  reflexivity.
Defined.

(** The example against a server that knows no groups and refuses the
    send. *)
Lemma X24_witness :
  ∃ traffic,
    hello_bot.main bare_and_refusing no_repr empty_world =
    (Stopped (SystemExit 1),
     mkWorld traffic
       ["SDK initialized: OshiBot(token='YOUR_BOT...', base_url='https://oshi-messenger.com')";
        "Bot name: unknown"; "Registered groups: 0";
        "ERROR: Bot is not assigned to group YOUR_GROUP_ID.";
        "  Assign it in the OSHI app under Portal > Bots > Edit."] []).
Proof.
  eexists.
  pose (st1 := (info bare_and_refusing (mkState (new_bot hello_bot.BOT_TOKEN) [])).2).
  rewrite (X24_hello_stops_when_send_fails bare_and_refusing no_repr empty_world ∅
             st1 (SdkError OshiGroupError (PyStr "Bot not assigned to group"))
             (send bare_and_refusing (PyStr hello_bot.GROUP_ID) "Hello from OSHI Bot!"
                (mkState (self st1) (journal st1))).2
             eq_refl eq_refl eq_refl).
  reflexivity.
Defined.

(** The example against a server that fails at the third request. *)
Lemma X25_witness :
  ∃ world,
    hello_bot.main failing_third no_repr empty_world =
    (Stopped (Exception (SdkError OshiBotError (PyStr "down"))), world) ∧
    stdout world =
      (hello_bot.first_steps failing_third no_repr empty_world).2.(stdout).
Proof.
  pose (w2 := (hello_bot.first_steps failing_third no_repr empty_world).2).
  eexists.
  rewrite (X25_hello_stats_failure_uncaught failing_third no_repr empty_world
             (new_bot hello_bot.BOT_TOKEN) w2
             (SdkError OshiBotError (PyStr "down"))
             (get_stats failing_third
                (mkState (new_bot hello_bot.BOT_TOKEN) (network w2))).2
             eq_refl eq_refl).
  split; reflexivity.
Defined.
